(** * The resilient request pipeline of the Salesforce Go SDK

    A shallow embedding of the parts of the SDK that carry state and
    failure modes: the token expiry check and the error taxonomy
    ([types/types.go]), the request executor with its retry loop
    ([http/client.go]), the token refresh path ([client.go] and the [auth]
    package) and the Bulk API 2.0 CSV framing (the [bulk] package).

    Conventions.  Go byte slices and strings are [string] (a list of 8-bit
    characters).  A Go [int] and a [time.Duration] are [Z], with the int64
    range written out where the code depends on it.  A Go [error] is a value
    of the inductive type [Types.error]; [nil] is [None].  Calls into the
    network, the clock, the random number generator and the JSON decoder
    are inputs of the model. *)

From Stdlib Require Import ZArith QArith Qround Qpower Lia Lqa String Ascii List Bool.
From Stdlib Require Import DecimalString.
From stdpp Require Import base option list gmap strings relations.

Open Scope string_scope.
Open Scope Z_scope.

(** ** The Go runtime types the code relies on *)

Module GoTime.

(** [time.Duration] is an int64 count of nanoseconds. *)
Definition Duration := Z.

Definition Nanosecond : Duration := 1.
Definition Microsecond : Duration := 1000 * Nanosecond.
Definition Millisecond : Duration := 1000 * Microsecond.
Definition Second : Duration := 1000 * Millisecond.
Definition Minute : Duration := 60 * Second.
Definition Hour : Duration := 60 * Minute.

Definition minDuration : Duration := - 2 ^ 63.
Definition maxDuration : Duration := 2 ^ 63 - 1.

(** An instant, in nanoseconds since the zero [time.Time]
    (January 1, year 1, 00:00:00 UTC). *)
Definition Time := Z.

Definition IsZero (t : Time) : bool := t =? 0.

(** [t.Sub(u)]: the difference [t - u], saturated to the range of
    [Duration]. *)
Definition Sub (t u : Time) : Duration :=
  if t - u <? minDuration then minDuration
  else if maxDuration <? t - u then maxDuration
  else t - u.

(** [time.Since(t)] is [time.Now().Sub(t)]; the reading of the clock is an
    argument. *)
Definition Since (now t : Time) : Duration := Sub now t.

Definition Add (t : Time) (d : Duration) : Time := t + d.

(** [t.After(u)]: [t] is strictly later than [u]. *)
Definition After (t u : Time) : bool := u <? t.

End GoTime.

Module Strconv.

Definition digit_of (c : ascii) : option Z :=
  let n := Z.of_N (N_of_ascii c) in
  if (48 <=? n) && (n <=? 57) then Some (n - 48) else None.

Fixpoint digits (s : string) (acc : Z) : option Z :=
  match s with
  | EmptyString => Some acc
  | String c s' =>
      match digit_of c with
      | Some d => digits s' (10 * acc + d)
      | None => None
      end
  end.

Definition unsigned (s : string) : option Z :=
  match s with
  | EmptyString => None
  | _ => digits s 0
  end.

(** [strconv.Atoi]: an optional sign followed by decimal digits, within the
    range of a 64-bit [int]; [None] stands for a non-nil error. *)
Definition Atoi (s : string) : option Z :=
  let signed :=
    match s with
    | String "+"%char s' => unsigned s'
    | String "-"%char s' => Z.opp <$> unsigned s'
    | _ => unsigned s
    end in
  match signed with
  | Some n => if (- 2 ^ 63 <=? n) && (n <=? 2 ^ 63 - 1) then Some n else None
  | None => None
  end.

(** [%d] of [fmt.Sprintf] on an [int]. *)
Definition Itoa (n : Z) : string := NilZero.string_of_int (Z.to_int n).

End Strconv.

(** ** [types/types.go] *)

Module Types.
Import GoTime.

Record Token := {
  AccessToken : string;
  RefreshToken : string;
  TokenType : string;
  InstanceURL : string;
  ID : string;
  IssuedAt : Time;
  ExpiresAt : Time;
  Scope : string;
  Signature : string
}.

(** [Token.IsExpired], with the reading of [time.Now()] as [now]. *)
Definition IsExpired (now : Time) (t : Token) : bool :=
  if IsZero (ExpiresAt t) then
    Since now (IssuedAt t) >? 2 * Hour
  else
    After now (Add (ExpiresAt t) (- 5 * Minute)).

Definition ErrorCode := string.

Definition ErrorCodeInvalidSession : ErrorCode := "INVALID_SESSION_ID".
Definition ErrorCodeSessionExpired : ErrorCode := "SESSION_EXPIRED".
Definition ErrorCodeRequestLimit : ErrorCode := "REQUEST_LIMIT_EXCEEDED".
Definition ErrorCodeNotFound : ErrorCode := "NOT_FOUND".
Definition ErrorCodeUnableToLockRow : ErrorCode := "UNABLE_TO_LOCK_ROW".

Definition StatusUnauthorized : Z := 401.
Definition StatusNotFound : Z := 404.
Definition StatusTooManyRequests : Z := 429.

Record APIError := {
  Message : string;
  Code : ErrorCode;
  Fields : list string;
  StatusCode : Z
}.

(** [APIError.IsRetryable]. *)
Definition IsRetryable (e : APIError) : bool :=
  if String.eqb (Code e) ErrorCodeRequestLimit
     || String.eqb (Code e) ErrorCodeUnableToLockRow
  then true
  else (StatusCode e =? StatusTooManyRequests) || (StatusCode e >=? 500).

Record AuthError := {
  ErrorType : string;
  Description : string;
  AuthStatusCode : Z
}.

Record RateLimitError := {
  RetryAfter : Z;
  RateLimitMessage : string
}.

(** The two values [ctx.Err()] can take once the context is done. *)
Inductive ContextError := Canceled | DeadlineExceeded.

(** The dynamic types an [error] value takes in the code modelled here.
    [ErrWrap] is [fmt.Errorf("msg: %w", err)]: the wrapper has its own
    dynamic type, so a type assertion on it does not see the inner error.
    [ErrOther] is an error made by [errors.New], by [fmt.Errorf] without a
    wrapped error, or by a library. *)
Inductive error :=
| ErrAPI (e : APIError)
| ErrAPIErrors (es : list APIError)
| ErrAuth (e : AuthError)
| ErrRateLimit (e : RateLimitError)
| ErrContext (e : ContextError)
| ErrOther (msg : string)
| ErrWrap (msg : string) (inner : error).

Inductive Result (A : Type) :=
| Ok (a : A)
| Err (e : error).
Arguments Ok {A} a.
Arguments Err {A} e.

(** [encoding/json] is outside the repository.  The two decodings
    [ParseAPIError] asks for are taken as given: each returns [Some] exactly
    when [json.Unmarshal] returns a nil error, with the decoded value. *)
Class JSON := {
  unmarshalAPIErrors : string -> option (list APIError);
  unmarshalAPIError : string -> option APIError
}.

Definition setStatus (statusCode : Z) (e : APIError) : APIError :=
  {| Message := Message e; Code := Code e; Fields := Fields e;
     StatusCode := statusCode |}.

(** The fallback of [ParseAPIError] for a body that is not a recognised
    error document. *)
Definition opaqueError (statusCode : Z) (body : string) : APIError :=
  {| Message := body;
     Code := "HTTP_" +:+ Strconv.Itoa statusCode;
     Fields := [];
     StatusCode := statusCode |}.

(** [ParseAPIError]. *)
Definition ParseAPIError `{JSON} (statusCode : Z) (body : string) : error :=
  match unmarshalAPIErrors body with
  | Some (e :: es) => ErrAPIErrors (map (setStatus statusCode) (e :: es))
  | _ =>
      match unmarshalAPIError body with
      | Some singleErr =>
          if negb (String.eqb (Code singleErr) "")
          then ErrAPI (setStatus statusCode singleErr)
          else ErrAPI (opaqueError statusCode body)
      | None => ErrAPI (opaqueError statusCode body)
      end
  end.

(** [IsRateLimitError]. *)
Definition IsRateLimitError (err : error) : bool :=
  match err with
  | ErrRateLimit _ => true
  | ErrAPI apiErr =>
      String.eqb (Code apiErr) ErrorCodeRequestLimit
      || (StatusCode apiErr =? StatusTooManyRequests)
  | _ => false
  end.

(** [IsRetryableError], the classifier of the [types] package: it looks
    into an [APIErrors] list as well. *)
Definition IsRetryableError (err : error) : bool :=
  match err with
  | ErrAPI apiErr => IsRetryable apiErr
  | ErrAPIErrors (first :: _) => IsRetryable first
  | _ => IsRateLimitError err
  end.

End Types.

(** ** The second [types] package

    The repository holds a second package [types] (its file name is not
    known), whose [Token] has no JSON tags and whose expiry check differs
    from the one above. *)

Module TypesShared.
Import GoTime.

Record Token := {
  AccessToken : string;
  TokenType : string;
  RefreshToken : string;
  InstanceURL : string;
  IssuedAt : Time;
  ExpiresAt : Time
}.

(** [Token.IsExpired] of this package. *)
Definition IsExpired (now : Time) (t : Token) : bool :=
  if IsZero (ExpiresAt t) then false
  else After now (ExpiresAt t).

End TypesShared.

(** ** [http/client.go]: the request executor *)

Module GoFloat.

(** The float64 values of [calculateBackoff] are idealised as rationals:
    the rounding of float64 arithmetic is not modelled.  The conversion to
    int64 is modelled with its range: Go leaves the result of converting an
    out-of-range float implementation-dependent, and the two common
    targets differ. *)
Inductive Arch := amd64 | arm64.

Definition minInt64 : Z := - 2 ^ 63.
Definition maxInt64 : Z := 2 ^ 63 - 1.

(** Truncation toward zero. *)
Definition truncate (x : Q) : Z :=
  if Qle_bool 0 x then Qfloor x else Qceiling x.

(** [int64(x)] for a float64 [x]: on amd64 the conversion instruction
    yields the smallest int64 for every out-of-range operand; on arm64 it
    saturates. *)
Definition int64_of_float64 (arch : Arch) (x : Q) : Z :=
  let t := truncate x in
  if (minInt64 <=? t) && (t <=? maxInt64) then t
  else
    match arch with
    | amd64 => minInt64
    | arm64 => if t <? 0 then minInt64 else maxInt64
    end.

End GoFloat.

Module Http.
Import GoTime Types GoFloat.

(** The [body interface{}] argument of [Request], by the cases of the type
    switch in [doRequest].  A reader is given by the bytes it has not
    delivered yet; any other value by what [json.Marshal] returns on it. *)
Inductive Body :=
| BodyNil
| BodyReader (unread : string)
| BodyBytes (b : string)
| BodyString (s : string)
| BodyValue (marshalled : Result string).

Record HTTPRequest := {
  Method : string;
  URL : string;
  Header : list (string * string);
  Payload : option string
}.

(** A response, as far as [doRequest] looks at it: [RetryAfterHeader] is
    [resp.Header.Get("Retry-After")], empty when the header is absent. *)
Record Response := {
  Status : Z;
  RetryAfterHeader : string;
  RespBody : string
}.

(** What sending a request comes to: [c.Do] fails, reading the body fails,
    or a response is read in full. *)
Inductive RoundTrip :=
| DoError (err : error)
| ReadError (err : error)
| Reply (resp : Response).

(** The remote side, as the answers to the requests still to come. *)
Definition Script := list (HTTPRequest -> RoundTrip).

(** The configuration of a [Client]. *)
Record Client := {
  hasTokenProvider : bool;
  maxRetries : Z;
  retryWaitMin : Duration;
  retryWaitMax : Duration
}.

Inductive Event :=
| EvSend (req : HTTPRequest)
| EvRefresh
| EvSleep (wait : Duration).

(** The mutable state a call works on: the fields of [Client] under [mu],
    the token of the [SalesforceClient] that serves as token provider, a
    virtual clock, and the record of what happened. *)
Record State := {
  baseURL : string;
  accessToken : string;
  token : option Token;
  refreshCalls : nat;
  samples : nat;
  clock : Time;
  log : list Event
}.

(** The surroundings of a call: the authenticator behind the token
    provider, the random number generator, the platform, the caller's
    context, and [http.NewRequestWithContext]. *)
Record Env := {
  authRefresh : nat -> Result Token;
  randFloat64 : nat -> Q;
  arch : Arch;
  ctxDoneAt : option Time;
  ctxErr : ContextError;
  selectPrefersDone : bool;
  newRequest : string -> string -> option error
}.

Definition setLog (st : State) (l : list Event) : State :=
  {| baseURL := baseURL st; accessToken := accessToken st; token := token st;
     refreshCalls := refreshCalls st; samples := samples st;
     clock := clock st; log := l |}.

Definition setClock (st : State) (t : Time) : State :=
  {| baseURL := baseURL st; accessToken := accessToken st; token := token st;
     refreshCalls := refreshCalls st; samples := samples st;
     clock := t; log := log st |}.

Definition record (ev : Event) (st : State) : State :=
  setLog st (log st ++ [ev]).

(** [SalesforceClient.GetToken]. *)
Definition GetToken (st : State) : option Token := token st.

(** [SalesforceClient.RefreshToken]: one call of [authenticator.Refresh];
    on success the token is stored and pushed into the HTTP client. *)
Definition RefreshToken (env : Env) (st : State) : option error * State :=
  let st := record EvRefresh st in
  match authRefresh env (refreshCalls st) with
  | Err err =>
      (Some err,
       {| baseURL := baseURL st; accessToken := accessToken st;
          token := token st; refreshCalls := S (refreshCalls st);
          samples := samples st; clock := clock st; log := log st |})
  | Ok tok =>
      (None,
       {| baseURL := if negb (String.eqb (InstanceURL tok) "")
                     then InstanceURL tok else baseURL st;
          accessToken := AccessToken tok;
          token := Some tok; refreshCalls := S (refreshCalls st);
          samples := samples st; clock := clock st; log := log st |})
  end.

(** The base address and bearer token [doRequest] settles on. *)
Definition credentials (c : Client) (st : State) : string * string :=
  if hasTokenProvider c then
    match GetToken st with
    | Some t =>
        (if negb (String.eqb (InstanceURL t) "")
         then InstanceURL t else baseURL st,
         AccessToken t)
    | None => (baseURL st, accessToken st)
    end
  else (baseURL st, accessToken st).

(** The type switch on [body]: the bytes to send, or the error of
    [json.Marshal]. *)
Definition bodyReader (body : Body) : Result (option string) :=
  match body with
  | BodyNil => Ok None
  | BodyReader unread => Ok (Some unread)
  | BodyBytes v => Ok (Some v)
  | BodyString v => Ok (Some v)
  | BodyValue (Ok jsonBody) => Ok (Some jsonBody)
  | BodyValue (Err err) => Err (ErrWrap "failed to marshal body" err)
  end.

(** Sending reads a reader to its end, so that a second request finds it
    empty; the other bodies are read from the start by every request. *)
Definition drain (body : Body) : Body :=
  match body with
  | BodyReader _ => BodyReader ""
  | _ => body
  end.

Definition buildRequest (method url tok : string) (payload : option string)
  : HTTPRequest :=
  {| Method := method;
     URL := url;
     Header := [("Authorization", "Bearer " +:+ tok);
                ("Content-Type", "application/json");
                ("Accept", "application/json")];
     Payload := payload |}.

(** The [RateLimitError] built from a 429 response. *)
Definition rateLimitError (resp : Response) : RateLimitError :=
  let retryAfter :=
    if negb (String.eqb (RetryAfterHeader resp) "") then
      match Strconv.Atoi (RetryAfterHeader resp) with
      | Some s => s
      | None => 60
      end
    else 60 in
  {| RetryAfter := retryAfter; RateLimitMessage := RespBody resp |}.

Definition Outcome : Type := Result string * Script * Body * State.

(** [Client.doRequest].  The recursion of the source (the replay after a
    refresh) consumes one scripted answer per call; [None] means that the
    script has no answer left for a request the code sends. *)
Fixpoint doRequest `{JSON} (env : Env) (c : Client) (method path : string)
    (script : Script) (body : Body) (st : State) : option Outcome :=
  let '(base, tok) := credentials c st in
  match bodyReader body with
  | Err err => Some (Err err, script, body, st)
  | Ok payload =>
      match newRequest env method (base +:+ path) with
      | Some err =>
          Some (Err (ErrWrap "failed to create request" err), script, body, st)
      | None =>
          match script with
          | [] => None
          | serve :: script' =>
              let req := buildRequest method (base +:+ path) tok payload in
              let st := record (EvSend req) st in
              let body := drain body in
              match serve req with
              | DoError err =>
                  Some (Err (ErrWrap "request failed" err), script', body, st)
              | ReadError err =>
                  Some (Err (ErrWrap "failed to read response" err),
                        script', body, st)
              | Reply resp =>
                  if (Status resp <? 200) || (Status resp >=? 300) then
                    if Status resp =? StatusTooManyRequests then
                      Some (Err (ErrRateLimit (rateLimitError resp)),
                            script', body, st)
                    else if (Status resp =? StatusUnauthorized)
                            && hasTokenProvider c then
                      match RefreshToken env st with
                      | (None, st) =>
                          doRequest env c method path script' body st
                      | (Some _, st) =>
                          Some (Err (ParseAPIError (Status resp) (RespBody resp)),
                                script', body, st)
                      end
                    else
                      Some (Err (ParseAPIError (Status resp) (RespBody resp)),
                            script', body, st)
                  else Some (Ok (RespBody resp), script', body, st)
              end
          end
      end
  end.

(** [Client.calculateBackoff], with the value of [rand.Float64()] as [r]. *)
Definition calculateBackoff (arch : Arch) (c : Client) (attempt : Z) (r : Q)
  : Duration :=
  let wait := (inject_Z (retryWaitMin c) * Qpower 2 attempt)%Q in
  let jitter := (wait * (2 # 10) * (r * 2 - 1))%Q in
  if int64_of_float64 arch (wait + jitter) >? retryWaitMax c
  then retryWaitMax c
  else int64_of_float64 arch (wait + jitter).

(** [isRetryable] of the [http] package. *)
Definition isRetryable (err : error) : bool :=
  match err with
  | ErrRateLimit _ => true
  | ErrAPI apiErr => IsRetryable apiErr
  | _ => false
  end.

Inductive Woken := ContextDone | TimerFired.

(** The [select] between [ctx.Done()] and [time.After(wait)], on the
    virtual clock: the timer fires [wait] from now (at once when [wait] is
    not positive), the context is done at [ctxDoneAt].  When both are ready
    at the same instant Go chooses at random; the choice is an input. *)
Definition sleep (env : Env) (wait : Duration) (st : State) : Woken * State :=
  let st := record (EvSleep wait) st in
  let fire := clock st + Z.max wait 0 in
  match ctxDoneAt env with
  | Some t =>
      if t <? fire then (ContextDone, setClock st (Z.max (clock st) t))
      else if fire <? t then (TimerFired, setClock st fire)
      else if selectPrefersDone env then (ContextDone, setClock st fire)
      else (TimerFired, setClock st fire)
  | None => (TimerFired, setClock st fire)
  end.

Definition drawSample (st : State) : State :=
  {| baseURL := baseURL st; accessToken := accessToken st; token := token st;
     refreshCalls := refreshCalls st; samples := S (samples st);
     clock := clock st; log := log st |}.

(** The error after the last attempt:
    [fmt.Errorf("request failed after %d attempts: %w", c.maxRetries+1, lastErr)]. *)
Definition exhausted (c : Client) (lastErr : option error) : error :=
  let msg := "request failed after " +:+ Strconv.Itoa (maxRetries c + 1)
             +:+ " attempts" in
  match lastErr with
  | Some err => ErrWrap msg err
  | None => ErrOther msg
  end.

(** The loop of [Client.Request]: [n] iterations are left, the next one is
    number [attempt]. *)
Fixpoint attempts `{JSON} (env : Env) (c : Client) (method path : string)
    (n : nat) (attempt : Z) (lastErr : option error)
    (script : Script) (body : Body) (st : State) : option Outcome :=
  match n with
  | O => Some (Err (exhausted c lastErr), script, body, st)
  | S n' =>
      match doRequest env c method path script body st with
      | None => None
      | Some (Ok resp, script, body, st) => Some (Ok resp, script, body, st)
      | Some (Err err, script, body, st) =>
          if negb (isRetryable err) then Some (Err err, script, body, st)
          else if attempt <? maxRetries c then
            let wait :=
              calculateBackoff (arch env) c attempt
                (randFloat64 env (samples st)) in
            match sleep env wait (drawSample st) with
            | (ContextDone, st) =>
                Some (Err (ErrContext (ctxErr env)), script, body, st)
            | (TimerFired, st) =>
                attempts env c method path n' (attempt + 1) (Some err)
                  script body st
            end
          else
            attempts env c method path n' (attempt + 1) (Some err)
              script body st
      end
  end.

(** The request [doRequest] sends in state [st] for the payload
    [payload]. *)
Definition requestFor (c : Client) (method path : string)
    (payload : option string) (st : State) : HTTPRequest :=
  let '(base, tok) := credentials c st in
  buildRequest method (base +:+ path) tok payload.

Definition isSend (ev : Event) : bool :=
  match ev with
  | EvSend _ => true
  | _ => false
  end.

Definition isRefresh (ev : Event) : bool :=
  match ev with
  | EvRefresh => true
  | _ => false
  end.

Fixpoint count (p : Event -> bool) (l : list Event) : nat :=
  match l with
  | [] => O
  | ev :: l' => if p ev then S (count p l') else count p l'
  end.

(** The waits asked for, in the order of the log. *)
Definition sleeps (l : list Event) : list Duration :=
  flat_map (fun ev => match ev with
                      | EvSleep wait => [wait]
                      | _ => []
                      end) l.

(** The requests sent, and the refreshes made, in a log. *)
Definition sends (l : list Event) : nat := count isSend l.
Definition refreshes (l : list Event) : nat := count isRefresh l.


(** [Client.Request]: attempts [0 .. maxRetries]. *)
Definition Request `{JSON} (env : Env) (c : Client) (method path : string)
    (script : Script) (body : Body) (st : State) : option Outcome :=
  attempts env c method path (Z.to_nat (maxRetries c + 1)) 0 None
    script body st.

End Http.

(** ** [encoding/csv], as the [bulk] package uses it

    The package is part of the Go library, not of the repository; what
    follows is its documented behaviour.  The reader and the writer are
    used with their default settings: comma as delimiter, no comment
    character, [FieldsPerRecord] initially 0, [LazyQuotes],
    [TrimLeadingSpace] and [UseCRLF] off.  The library reads its input line
    by line; here a record is read from the input as a whole, byte by
    byte. *)

Module Csv.

Definition LF : ascii := ascii_of_nat 10.
Definition CR : ascii := ascii_of_nat 13.
Definition quote : ascii := ascii_of_nat 34.
Definition comma : ascii := ascii_of_nat 44.

Definition snoc (s : string) (c : ascii) : string := s +:+ String c "".

(** What the reader does to line ends while it reads lines: a carriage
    return before a newline is removed, and so is one that ends the
    input. *)
Fixpoint normalize (s : string) : string :=
  match s with
  | EmptyString => ""
  | String c s' =>
      if Ascii.eqb c CR then
        match s' with
        | EmptyString => ""
        | String c' _ =>
            if Ascii.eqb c' LF then normalize s' else String c (normalize s')
        end
      else String c (normalize s')
  end.

Fixpoint skipEmptyLines (s : string) : string :=
  match s with
  | EmptyString => ""
  | String c s' => if Ascii.eqb c LF then skipEmptyLines s' else s
  end.

(** The input after the end of the current line. *)
Fixpoint skipLine (s : string) : string :=
  match s with
  | EmptyString => ""
  | String c s' => if Ascii.eqb c LF then s' else skipLine s'
  end.

Inductive ParseError := ErrBareQuote | ErrQuote | ErrFieldCount.

(** The parse error as a Go [error]. *)
Definition parseError (err : ParseError) : Types.error :=
  Types.ErrOther
    match err with
    | ErrBareQuote => "parse error: bare quote in non-quoted field"
    | ErrQuote => "parse error: extraneous or missing quote in quoted field"
    | ErrFieldCount => "parse error: wrong number of fields"
    end.

(** The result of [Reader.Read]: [io.EOF], a record, or a parse error
    together with the fields read so far. *)
Inductive ReadResult :=
| ReadEOF
| ReadRecord (fields : list string)
| ReadFailed (fields : list string) (err : ParseError).

Inductive Mode := FieldStart | Unquoted | Quoted | QuoteSeen.

(** One record is read from [s]: [cur] is the field being read, [fields]
    the fields before it.  A quoted field may contain delimiters and
    newlines, and a doubled quote stands for one quote; a quote in an
    unquoted field, and anything but a delimiter or a line end after a
    closing quote, are errors. *)
Fixpoint scan (m : Mode) (s : string) (cur : string) (fields : list string)
  : ReadResult * string :=
  match s with
  | EmptyString =>
      match m with
      | Quoted => (ReadFailed fields ErrQuote, "")
      | _ => (ReadRecord (fields ++ [cur]), "")
      end
  | String c s' =>
      match m with
      | Quoted =>
          if Ascii.eqb c quote then scan QuoteSeen s' cur fields
          else scan Quoted s' (snoc cur c) fields
      | QuoteSeen =>
          if Ascii.eqb c quote then scan Quoted s' (snoc cur quote) fields
          else if Ascii.eqb c comma then scan FieldStart s' "" (fields ++ [cur])
          else if Ascii.eqb c LF then (ReadRecord (fields ++ [cur]), s')
          else (ReadFailed fields ErrQuote, skipLine s')
      | FieldStart =>
          if Ascii.eqb c quote then scan Quoted s' "" fields
          else if Ascii.eqb c comma then scan FieldStart s' "" (fields ++ [cur])
          else if Ascii.eqb c LF then (ReadRecord (fields ++ [cur]), s')
          else scan Unquoted s' (snoc cur c) fields
      | Unquoted =>
          if Ascii.eqb c comma then scan FieldStart s' "" (fields ++ [cur])
          else if Ascii.eqb c LF then (ReadRecord (fields ++ [cur]), s')
          else if Ascii.eqb c quote then (ReadFailed fields ErrBareQuote, skipLine s')
          else scan Unquoted s' (snoc cur c) fields
      end
  end.

(** [Reader.readRecord]: empty lines are skipped, then one record is
    read. *)
Definition readRecord (s : string) : ReadResult * string :=
  match skipEmptyLines s with
  | EmptyString => (ReadEOF, "")
  | s1 => scan FieldStart s1 "" []
  end.

Record Reader := {
  unread : string;
  FieldsPerRecord : Z
}.

(** [csv.NewReader]. *)
Definition NewReader (data : string) : Reader :=
  {| unread := normalize data; FieldsPerRecord := 0 |}.

Definition fieldCount (fields : list string) : Z := Z.of_nat (length fields).

(** [Reader.Read]: the first record fixes the number of fields; a later
    record with another number of fields is returned with
    [ErrFieldCount]. *)
Definition Read (r : Reader) : ReadResult * Reader :=
  match readRecord (unread r) with
  | (ReadEOF, rest) =>
      (ReadEOF, {| unread := rest; FieldsPerRecord := FieldsPerRecord r |})
  | (ReadRecord dst, rest) =>
      if FieldsPerRecord r >? 0 then
        if negb (fieldCount dst =? FieldsPerRecord r)
        then (ReadFailed dst ErrFieldCount,
              {| unread := rest; FieldsPerRecord := FieldsPerRecord r |})
        else (ReadRecord dst,
              {| unread := rest; FieldsPerRecord := FieldsPerRecord r |})
      else if FieldsPerRecord r =? 0 then
        (ReadRecord dst, {| unread := rest; FieldsPerRecord := fieldCount dst |})
      else
        (ReadRecord dst,
         {| unread := rest; FieldsPerRecord := FieldsPerRecord r |})
  | (ReadFailed dst err, rest) =>
      (ReadFailed dst err,
       {| unread := rest;
          FieldsPerRecord := if FieldsPerRecord r =? 0 then fieldCount dst
                             else FieldsPerRecord r |})
  end.

Fixpoint contains (p : ascii -> bool) (s : string) : bool :=
  match s with
  | EmptyString => false
  | String c s' => p c || contains p s'
  end.

Definition codes (s : string) : list N := map N_of_ascii (list_ascii_of_string s).

(** [unicode.IsSpace] of the first rune of a UTF-8 string. *)
Definition startsWithSpace (s : string) : bool :=
  match codes s with
  | (9 | 10 | 11 | 12 | 13 | 32)%N :: _ => true
  | 194%N :: (133 | 160)%N :: _ => true
  | 225%N :: 154%N :: 128%N :: _ => true
  | 226%N :: 128%N :: c :: _ =>
      ((128 <=? c) && (c <=? 138))%N || (c =? 168)%N || (c =? 169)%N
      || (c =? 175)%N
  | 226%N :: 129%N :: 159%N :: _ => true
  | 227%N :: 128%N :: 128%N :: _ => true
  | _ => false
  end.

(** [Writer.fieldNeedsQuotes]. *)
Definition fieldNeedsQuotes (field : string) : bool :=
  if String.eqb field "" then false
  else if String.eqb field "\." then true
  else if contains (fun c => Ascii.eqb c LF || Ascii.eqb c CR
                             || Ascii.eqb c quote || Ascii.eqb c comma) field
  then true
  else startsWithSpace field.

(** The inside of a quoted field: every quote is doubled. *)
Fixpoint escape (field : string) : string :=
  match field with
  | EmptyString => ""
  | String c s' =>
      if Ascii.eqb c quote then String quote (String quote (escape s'))
      else String c (escape s')
  end.

Definition writeField (field : string) : string :=
  if fieldNeedsQuotes field
  then String quote (escape field) +:+ String quote ""
  else field.

Fixpoint writeFields (record : list string) : string :=
  match record with
  | [] => ""
  | [field] => writeField field
  | field :: rest => writeField field +:+ String comma (writeFields rest)
  end.

(** [Writer.Write] followed by the eventual [Flush]: the bytes one record
    adds to the underlying buffer. *)
Definition Write (record : list string) (buf : string) : string :=
  buf +:+ writeFields record +:+ String LF "".

End Csv.

(** ** The [bulk] package *)

Module Bulk.
Import Types.

(** The values of a [map[string]interface{}] record. *)
Inductive Value :=
| VString (s : string)
| VInt (n : Z)
| VBool (b : bool)
| VNil.

(** [fmt.Sprintf("%v", val)]. *)
Definition formatValue (val : Value) : string :=
  match val with
  | VString s => s
  | VInt n => Strconv.Itoa n
  | VBool true => "true"
  | VBool false => "false"
  | VNil => "<nil>"
  end.

(** The [HTTPClient] interface, over the state [C] of an implementation;
    the context travels with the state. *)
Class HTTPClient (C : Type) := {
  Get : string -> C -> Result string * C;
  Post : string -> Http.Body -> C -> Result string * C;
  Patch : string -> Http.Body -> C -> Result string * C;
  Put : string -> Http.Body -> C -> Result string * C;
  Delete : string -> C -> Result string * C
}.

Record Service := { apiVersion : string }.

Record FailedRecord := {
  FailedID : string;
  FailedError : string;
  FailedData : gmap string Value
}.

Record SuccessRecord := {
  SuccessID : string;
  Created : bool;
  SuccessData : gmap string Value
}.

(** The inner loop of [parseCSV]:
    [for i, h := range headers { if i < len(row) { record[h] = row[i] } }]. *)
Fixpoint fillRecord (headers : list string) (i : nat) (row : list string)
    (record : gmap string Value) : gmap string Value :=
  match headers with
  | [] => record
  | h :: headers' =>
      match row !! i with
      | Some cell => fillRecord headers' (S i) row (<[h := VString cell]> record)
      | None => fillRecord headers' (S i) row record
      end
  end.

(** The outer loop of [parseCSV], for at most [fuel] rows; [None] when the
    fuel is used up before the reader reports the end of the input. *)
Fixpoint readRows (fuel : nat) (reader : Csv.Reader) (headers : list string)
    (records : list (gmap string Value))
  : option (Result (list (gmap string Value))) :=
  match fuel with
  | O => None
  | S fuel' =>
      match Csv.Read reader with
      | (Csv.ReadEOF, _) => Some (Ok records)
      | (Csv.ReadFailed _ err, _) =>
          Some (Err (ErrWrap "failed to read row" (Csv.parseError err)))
      | (Csv.ReadRecord row, reader') =>
          readRows fuel' reader' headers
            (records ++ [fillRecord headers 0 row ∅])
      end
  end.

(** [parseCSV].  Every row that is read takes at least one byte of input,
    so one more iteration than the input has bytes is enough fuel. *)
Definition parseCSV (data : string)
  : option (Result (list (gmap string Value))) :=
  let reader := Csv.NewReader data in
  match Csv.Read reader with
  | (Csv.ReadEOF, _) => Some (Ok [])
  | (Csv.ReadFailed _ err, _) =>
      Some (Err (ErrWrap "failed to read header" (Csv.parseError err)))
  | (Csv.ReadRecord headers, reader') =>
      readRows (S (String.length data)) reader' headers []
  end.

(** [getString]. *)
Definition getString (m : gmap string Value) (key : string) : string :=
  match m !! key with
  | Some (VString v) => v
  | _ => ""
  end.

Section Service.
Context {C : Type} `{HTTPClient C}.
(** The order in which [range] visits the keys of a map is not fixed by
    Go; it is an input. *)
Variable rangeKeys : gmap string Value -> list string.

Definition resultsPath (s : Service) (jobID suffix : string) : string :=
  "/services/data/v" +:+ apiVersion s +:+ "/jobs/ingest/" +:+ jobID +:+ suffix.

(** [Service.UploadData]. *)
Definition UploadData (s : Service) (jobID : string) (data : string) (c : C)
  : option error * C :=
  match Put (resultsPath s jobID "/batches") (Http.BodyReader data) c with
  | (Ok _, c) => (None, c)
  | (Err err, c) => (Some err, c)
  end.

(** One data row of [UploadCSV]: the cell of a column the record lacks is
    the empty string. *)
Definition csvRow (columns : list string) (record : gmap string Value)
  : list string :=
  map (fun col => match record !! col with
                  | Some val => formatValue val
                  | None => ""
                  end) columns.

(** [Service.UploadCSV].  With the default delimiter [Writer.Write] does
    not fail. *)
Definition UploadCSV (s : Service) (jobID : string)
    (records : list (gmap string Value)) (columns : list string) (c : C)
  : option error * C :=
  match records with
  | [] => (None, c)
  | first :: _ =>
      let columns :=
        match columns with
        | [] => rangeKeys first
        | _ => columns
        end in
      let buf := Csv.Write columns "" in
      let buf := fold_left (fun buf record => Csv.Write (csvRow columns record) buf)
                           records buf in
      UploadData s jobID buf c
  end.

(** [Service.GetSuccessfulRecords]. *)
Definition GetSuccessfulRecords (s : Service) (jobID : string) (c : C)
  : option (Result (list SuccessRecord)) * C :=
  match Get (resultsPath s jobID "/successfulResults") c with
  | (Err err, c) => (Some (Err err), c)
  | (Ok respBody, c) =>
      match parseCSV respBody with
      | None => (None, c)
      | Some (Err err) => (Some (Err err), c)
      | Some (Ok records) =>
          (Some (Ok (map (fun r =>
                            {| SuccessID := getString r "sf__Id";
                               Created := String.eqb (getString r "sf__Created") "true";
                               SuccessData := r |}) records)), c)
      end
  end.

(** [Service.GetFailedRecords]. *)
Definition GetFailedRecords (s : Service) (jobID : string) (c : C)
  : option (Result (list FailedRecord)) * C :=
  match Get (resultsPath s jobID "/failedResults") c with
  | (Err err, c) => (Some (Err err), c)
  | (Ok respBody, c) =>
      match parseCSV respBody with
      | None => (None, c)
      | Some (Err err) => (Some (Err err), c)
      | Some (Ok records) =>
          (Some (Ok (map (fun r =>
                            {| FailedID := getString r "sf__Id";
                               FailedError := getString r "sf__Error";
                               FailedData := r |}) records)), c)
      end
  end.

(** [Service.GetUnprocessedRecords]. *)
Definition GetUnprocessedRecords (s : Service) (jobID : string) (c : C)
  : option (Result (list (gmap string Value))) * C :=
  match Get (resultsPath s jobID "/unprocessedrecords") c with
  | (Err err, c) => (Some (Err err), c)
  | (Ok respBody, c) => (parseCSV respBody, c)
  end.

End Service.

End Bulk.

(** ** The refresh path under concurrent callers

    [SalesforceClient.RefreshToken] ([client.go]) calls
    [authenticator.Refresh], which sends the token request, stores the
    token it gets under the authenticator's mutex and returns it;
    [RefreshToken] then stores it under the client's mutex.  Each caller
    runs this sequence; the steps of different callers interleave. *)

Module Auth.
Import Types.

(** Where one caller stands. *)
Inductive PC :=
| Start
| InFlight
| Received (r : Result Token)
| AuthLocked (tok : Token)
| Returned (tok : Token)
| ClientLocked (tok : Token)
| Finished (r : Result Token).

(** The callers, the two mutexes and the two copies of the token, together
    with what the authentication endpoint has seen: the number of token
    requests that reached it, and the answers it gave, by caller. *)
Record Shared := {
  callers : list PC;
  exchanges : nat;
  answered : list (nat * Result Token);
  authMu : bool;
  currentToken : option Token;
  clientMu : bool;
  clientToken : option Token
}.

Definition move (i : nat) (pc : PC) (s : Shared) : Shared :=
  {| callers := <[i := pc]> (callers s); exchanges := exchanges s;
     answered := answered s;
     authMu := authMu s; currentToken := currentToken s;
     clientMu := clientMu s; clientToken := clientToken s |}.

(** One step of one caller.  [exchanges] counts the token requests that
    reach the authentication endpoint; the endpoint may answer each
    request with any token or any error. *)
Inductive step : Shared -> Shared -> Prop :=
| step_send i s :
    callers s !! i = Some Start ->
    step s {| callers := <[i := InFlight]> (callers s);
              exchanges := S (exchanges s);
              answered := answered s;
              authMu := authMu s; currentToken := currentToken s;
              clientMu := clientMu s; clientToken := clientToken s |}
| step_answer i r s :
    callers s !! i = Some InFlight ->
    step s {| callers := <[i := Received r]> (callers s);
              exchanges := exchanges s;
              answered := answered s ++ [(i, r)];
              authMu := authMu s; currentToken := currentToken s;
              clientMu := clientMu s; clientToken := clientToken s |}
| step_fail i err s :
    callers s !! i = Some (Received (Err err)) ->
    step s (move i (Finished (Err err)) s)
| step_auth_lock i tok s :
    callers s !! i = Some (Received (Ok tok)) ->
    authMu s = false ->
    step s {| callers := <[i := AuthLocked tok]> (callers s);
              exchanges := exchanges s;
              answered := answered s;
              authMu := true; currentToken := currentToken s;
              clientMu := clientMu s; clientToken := clientToken s |}
| step_auth_store i tok s :
    callers s !! i = Some (AuthLocked tok) ->
    step s {| callers := <[i := Returned tok]> (callers s);
              exchanges := exchanges s;
              answered := answered s;
              authMu := false; currentToken := Some tok;
              clientMu := clientMu s; clientToken := clientToken s |}
| step_client_lock i tok s :
    callers s !! i = Some (Returned tok) ->
    clientMu s = false ->
    step s {| callers := <[i := ClientLocked tok]> (callers s);
              exchanges := exchanges s;
              answered := answered s;
              authMu := authMu s; currentToken := currentToken s;
              clientMu := true; clientToken := clientToken s |}
| step_client_store i tok s :
    callers s !! i = Some (ClientLocked tok) ->
    step s {| callers := <[i := Finished (Ok tok)]> (callers s);
              exchanges := exchanges s;
              answered := answered s;
              authMu := authMu s; currentToken := currentToken s;
              clientMu := false; clientToken := Some tok |}.

(** [n] callers enter [RefreshToken]; nothing is in flight. *)
Definition init (n : nat) : Shared :=
  {| callers := replicate n Start; exchanges := 0; answered := [];
     authMu := false; currentToken := None;
     clientMu := false; clientToken := None |}.




Definition inAuthSection (pc : PC) : bool :=
  match pc with
  | AuthLocked _ => true
  | _ => false
  end.

Definition inClientSection (pc : PC) : bool :=
  match pc with
  | ClientLocked _ => true
  | _ => false
  end.

(** The number of callers whose position satisfies [p]. *)
Definition countIf (p : PC -> bool) (l : list PC) : nat :=
  length (filter (fun pc => p pc = true) l).


Definition held (mu : bool) : nat := if mu then 1%nat else 0%nat.


End Auth.

(** ** Concrete inputs used by the examples below *)

Module Examples.
Import GoTime Types.

(** An instant of the 2020s, as nanoseconds since the zero time. *)
Definition t0 : Time := 63900000000 * Second.

(** A token as [NewTokenAuthenticator] and [SetAccessToken] build it: no
    [ExpiresAt]. *)
Definition tokenNoExpiry : Token :=
  {| AccessToken := "00Dxx0000001gPL!AQ4"; RefreshToken := "";
     TokenType := "Bearer"; InstanceURL := "https://na1.example.com";
     ID := ""; IssuedAt := t0; ExpiresAt := 0; Scope := ""; Signature := "" |}.

(** A token as [OAuthRefreshAuthenticator.Refresh] builds it: it expires
    two hours after it is issued. *)
Definition tokenTwoHours : Token :=
  {| AccessToken := "00Dxx0000001gPL!AQ5"; RefreshToken := "5Aep861";
     TokenType := "Bearer"; InstanceURL := "https://na1.example.com";
     ID := ""; IssuedAt := t0; ExpiresAt := t0 + 2 * Hour;
     Scope := ""; Signature := "" |}.

Import GoFloat Http.

Definition quoted (s : string) : string :=
  String Csv.quote s +:+ String Csv.quote "".

(** The body of an error response in the format of the REST API, a JSON
    array with one error object. *)
Definition bodyUnavailable : string :=
  "[{" +:+ quoted "message" +:+ ":" +:+ quoted "Service Unavailable" +:+ ","
  +:+ quoted "errorCode" +:+ ":" +:+ quoted "SERVER_UNAVAILABLE" +:+ "}]".

Definition errUnavailable : APIError :=
  {| Message := "Service Unavailable"; Code := "SERVER_UNAVAILABLE";
     Fields := []; StatusCode := 0 |}.

(** The same error as a single JSON object. *)
Definition bodyUnavailableObject : string :=
  "{" +:+ quoted "message" +:+ ":" +:+ quoted "Service Unavailable" +:+ ","
  +:+ quoted "errorCode" +:+ ":" +:+ quoted "SERVER_UNAVAILABLE" +:+ "}".

(** [json.Unmarshal] on the bodies of the examples: an array decodes into
    [APIErrors] and not into [APIError], an object the other way round,
    anything else into neither. *)
#[local] Instance exampleJSON : JSON := {|
  unmarshalAPIErrors body :=
    if String.eqb body bodyUnavailable then Some [errUnavailable] else None;
  unmarshalAPIError body :=
    if String.eqb body bodyUnavailableObject then Some errUnavailable else None
|}.

(** The token the [k]-th refresh yields. *)
Definition refreshed (k : nat) : Token :=
  {| AccessToken := "fresh-" +:+ Strconv.Itoa (Z.of_nat k);
     Types.RefreshToken := "5Aep861";
     TokenType := "Bearer"; InstanceURL := "https://na1.example.com";
     ID := ""; IssuedAt := t0; ExpiresAt := t0 + 2 * Hour;
     Scope := ""; Signature := "" |}.

(** Every refresh succeeds, the jitter is in the middle of its range (no
    jitter), and the context is never done. *)
Definition env0 : Env :=
  {| authRefresh := fun k => Ok (refreshed k);
     randFloat64 := fun _ => (1 # 2)%Q;
     arch := amd64;
     ctxDoneAt := None;
     ctxErr := Canceled;
     selectPrefersDone := true;
     newRequest := fun _ _ => None |}.

(** As [env0], with a context that is canceled 400 ms after [t0]. *)
Definition envCanceled : Env :=
  {| authRefresh := fun k => Ok (refreshed k);
     randFloat64 := fun _ => (1 # 2)%Q;
     arch := amd64;
     ctxDoneAt := Some (t0 + 400 * Millisecond);
     ctxErr := Canceled;
     selectPrefersDone := true;
     newRequest := fun _ _ => None |}.

(** As [env0], with an authenticator whose refresh fails. *)
Definition envNoRefresh : Env :=
  {| authRefresh := fun _ => Err (ErrAuth {| ErrorType := "invalid_grant";
                                             Description := "expired access/refresh token";
                                             AuthStatusCode := 400 |});
     randFloat64 := fun _ => (1 # 2)%Q;
     arch := amd64;
     ctxDoneAt := None;
     ctxErr := Canceled;
     selectPrefersDone := true;
     newRequest := fun _ _ => None |}.

(** The client as [NewClient] configures it: three retries, waits between
    one and thirty seconds, with a token provider. *)
Definition client0 : Client :=
  {| hasTokenProvider := true; maxRetries := 3;
     retryWaitMin := 1 * Second; retryWaitMax := 30 * Second |}.

(** The same client after [WithRetry(40, time.Second, 30*time.Second)]. *)
Definition client40 : Client :=
  {| hasTokenProvider := true; maxRetries := 40;
     retryWaitMin := 1 * Second; retryWaitMax := 30 * Second |}.

Definition st0 : State :=
  {| baseURL := "https://na1.example.com"; accessToken := "00Dxx0000001gPL!AQ5";
     token := Some tokenTwoHours; refreshCalls := 0; samples := 0;
     clock := t0; log := [] |}.

Definition reply (status : Z) (retryAfter body : string) : HTTPRequest -> RoundTrip :=
  fun _ => Reply {| Status := status; RetryAfterHeader := retryAfter;
                    RespBody := body |}.

Definition limitsPath : string := "/services/data/v59.0/limits".

Import Bulk.

(** The lines of a result body, each ended by a newline. *)
Fixpoint lines (l : list string) : string :=
  match l with
  | [] => ""
  | line :: l' => line +:+ String Csv.LF (lines l')
  end.

Definition failedHeader : string := "sf__Id,sf__Error,Name".

(** The failed-results body of the specification: the row has a cell for
    every column, the last one empty. *)
Definition failedBody : string :=
  lines [failedHeader; "001xx0000000001,REQUIRED_FIELD_MISSING: Name,"].

(** The same row without its trailing column. *)
Definition shortRowBody : string :=
  lines [failedHeader; "001xx0000000001,REQUIRED_FIELD_MISSING: Name";
         "001xx0000000002,DUPLICATE_VALUE,Acme"].

(** A row with one column more than the header. *)
Definition extraColumnBody : string :=
  lines [failedHeader; "001xx0000000001,REQUIRED_FIELD_MISSING: Name,,extra"].

(** A test double for [HTTPClient]: it answers every call from a table and
    keeps a list of the calls it received. *)
Record Fake := {
  answer : string -> string -> Result string;
  calls : list (string * string * Http.Body)
}.

Definition fakeCall (method path : string) (body : Http.Body) (c : Fake)
  : Result string * Fake :=
  (answer c method path,
   {| answer := answer c; calls := calls c ++ [(method, path, body)] |}).

#[local] Instance fakeClient : HTTPClient Fake := {|
  Get path := fakeCall "GET" path Http.BodyNil;
  Post path body := fakeCall "POST" path body;
  Patch path body := fakeCall "PATCH" path body;
  Put path body := fakeCall "PUT" path body;
  Delete path := fakeCall "DELETE" path Http.BodyNil
|}.

Definition service59 : Service := {| apiVersion := "59.0" |}.

(** A server whose result endpoints deliver [body]. *)
Definition serving (body : string) : Fake :=
  {| answer := fun _ _ => Ok body; calls := [] |}.

(** A record as a caller of [UploadCSV] builds it. *)
Definition acme : gmap string Value := <["Name" := VString "Acme"]> ∅.

(** The keys of a map in ascending order: one of the orders [range] may
    take. *)
Definition sortedKeys (m : gmap string Value) : list string :=
  (map_to_list m).*1.

Import Auth.



End Examples.

(** ** [client.go]: the [SalesforceClient] around the executor *)

Module Salesforce.
Import GoTime Types Http.

(** [SalesforceClient.Connect], with the result of
    [authenticator.Authenticate] as [auth]. *)
Definition Connect (auth : Result Token) (st : State) : option error * State :=
  match auth with
  | Err err => (Some (ErrWrap "authentication failed" err), st)
  | Ok tok =>
      (None,
       {| baseURL := InstanceURL tok; accessToken := AccessToken tok;
          token := Some tok; refreshCalls := refreshCalls st;
          samples := samples st; clock := clock st; log := log st |})
  end.

(** [SalesforceClient.SetAccessToken], with the reading of [time.Now()] as
    [now]. *)
Definition SetAccessToken (now : Time) (accessToken instanceURL : string)
    (st : State) : State :=
  {| baseURL := instanceURL; Http.accessToken := accessToken;
     token := Some {| AccessToken := accessToken; Types.RefreshToken := "";
                      TokenType := "Bearer"; InstanceURL := instanceURL;
                      ID := ""; IssuedAt := now; ExpiresAt := 0;
                      Scope := ""; Signature := "" |};
     refreshCalls := refreshCalls st; samples := samples st;
     clock := clock st; log := log st |}.

(** The token and the base address the HTTP client holds itself are those
    of the token of the provider. *)
Definition mirrors (st : State) : Prop :=
  match token st with
  | Some t =>
      accessToken st = AccessToken t /\
      (InstanceURL t <> "" -> baseURL st = InstanceURL t)
  | None => True
  end.

End Salesforce.

(** ** CSV text as the writer produces it *)

Module CsvText.
Import Csv.

(** The bytes that make [Writer.fieldNeedsQuotes] quote a field. *)
Definition special (c : ascii) : bool :=
  Ascii.eqb c LF || Ascii.eqb c CR || Ascii.eqb c quote || Ascii.eqb c comma.

Definition isCR (c : ascii) : bool := Ascii.eqb c CR.

(** A record whose fields hold no carriage return, and which is not the
    record of one empty field (the writer turns that one into an empty
    line). *)
Definition writable (record : list string) : Prop :=
  record <> [] /\ record <> [""] /\
  Forall (fun field => contains isCR field = false) record.

(** The text of a sequence of [Writer.Write] calls. *)
Fixpoint encode (records : list (list string)) : string :=
  match records with
  | [] => ""
  | record :: records' => writeFields record +:+ String LF (encode records')
  end.

End CsvText.

Module BulkText.
Import Types Bulk.

(** The buffer [UploadCSV] hands to [UploadData]: the header row and one
    row for each record. *)
Definition csvBody (columns : list string) (records : list (gmap string Value))
  : string :=
  fold_left (fun buf record => Csv.Write (csvRow columns record) buf) records
            (Csv.Write columns "").

(** The cell [UploadCSV] writes for a column of a record. *)
Definition cell (record : gmap string Value) (col : string) : string :=
  match record !! col with
  | Some val => formatValue val
  | None => ""
  end.


End BulkText.


(** ** [bulk]: jobs and the wait for their completion *)

Module BulkJobs.
Import GoTime Types Bulk.

Definition StateOpen : string := "Open".
Definition StateUploadComplete : string := "UploadComplete".
Definition StateInProgress : string := "InProgress".
Definition StateJobComplete : string := "JobComplete".
Definition StateFailed : string := "Failed".
Definition StateAborted : string := "Aborted".

Record JobInfo := {
  ID : string;
  Object : string;
  Operation : string;
  State : string;
  ContentType : string;
  ColumnDelimiter : string;
  LineEnding : string;
  ExternalIdFieldName : string;
  CreatedById : string;
  CreatedDate : string;
  SystemModstamp : string;
  ConcurrencyMode : string;
  ContentURL : string;
  NumberRecordsProcessed : Z;
  NumberRecordsFailed : Z;
  Retries : Z;
  TotalProcessingTime : Z;
  ApiActiveProcessingTime : Z;
  ApexProcessingTime : Z;
  ErrorMessage : string
}.

(** [JobInfo.IsComplete]. *)
Definition IsComplete (j : JobInfo) : bool :=
  String.eqb (State j) StateJobComplete || String.eqb (State j) StateFailed
  || String.eqb (State j) StateAborted.

(** [JobInfo.IsSuccess]. *)
Definition IsSuccess (j : JobInfo) : bool :=
  String.eqb (State j) StateJobComplete && (NumberRecordsFailed j =? 0).

(** [json.Unmarshal] into a [JobInfo]: the job, or the error of the
    decoder. *)
Class JobJSON := {
  unmarshalJobInfo : string -> Result JobInfo
}.

(** What a call of [WaitForCompletion] comes to: [time.NewTicker] panics
    on an interval that is not positive; otherwise the call returns. *)
Inductive Waited :=
| Panicked
| Returned (res : Result JobInfo).

Section Service.
Context {C : Type} `{HTTPClient C} `{JobJSON}.

(** Which case the [select] of the [round]-th iteration takes is decided
    by the times of the ticks and of the end of the context and, when
    both are ready, by the scheduler: [ctxDone round] says that it takes
    [<-ctx.Done()]. *)
Variable ctxDone : nat -> bool.
Variable ctxErr : ContextError.

Definition jobPath (s : Service) (jobID : string) : string :=
  "/services/data/v" +:+ apiVersion s +:+ "/jobs/ingest/" +:+ jobID.

(** [Service.GetJob]. *)
Definition GetJob (s : Service) (jobID : string) (c : C) : Result JobInfo * C :=
  match Get (jobPath s jobID) c with
  | (Err err, c) => (Err err, c)
  | (Ok respBody, c) =>
      match unmarshalJobInfo respBody with
      | Ok job => (Ok job, c)
      | Err err => (Err (ErrWrap "failed to parse response" err), c)
      end
  end.

(** The loop of [WaitForCompletion] from its [round]-th iteration on, for
    at most [fuel] iterations; [None] when the fuel is used up first. *)
Fixpoint poll (fuel : nat) (round : nat) (s : Service) (jobID : string) (c : C)
  : option (Result JobInfo) * C :=
  match fuel with
  | O => (None, c)
  | S fuel' =>
      if ctxDone round then (Some (Err (ErrContext ctxErr)), c)
      else
        match GetJob s jobID c with
        | (Err err, c) => (Some (Err err), c)
        | (Ok job, c) =>
            if IsComplete job then (Some (Ok job), c)
            else poll fuel' (S round) s jobID c
        end
  end.

(** [Service.WaitForCompletion]. *)
Definition WaitForCompletion (fuel : nat) (s : Service) (jobID : string)
    (pollInterval : Duration) (c : C) : option Waited * C :=
  let pollInterval := if pollInterval =? 0 then 5 * Second else pollInterval in
  if pollInterval <=? 0 then (Some Panicked, c)
  else
    match poll fuel 0 s jobID c with
    | (Some res, c) => (Some (Returned res), c)
    | (None, c) => (None, c)
    end.

(** [n] calls of [GetJob] in a row, each answered with a job that is not
    complete, take the client from [c] to [c']. *)
Inductive unfinished (s : Service) (jobID : string) : nat -> C -> C -> Prop :=
| unfinished_O (c : C) : unfinished s jobID 0 c c
| unfinished_S (n : nat) (c c1 c' : C) (job : JobInfo) :
    GetJob s jobID c = (Ok job, c1) ->
    IsComplete job = false ->
    unfinished s jobID n c1 c' ->
    unfinished s jobID (S n) c c'.

(** A result of [GetJob] that ends the wait: an error, or a complete
    job. *)
Definition decisive (res : Result JobInfo) : bool :=
  match res with
  | Ok job => IsComplete job
  | Err _ => true
  end.

End Service.

End BulkJobs.

(** ** [auth]: the helpers of the SOAP login *)

Module AuthText.

Definition amp : ascii := ascii_of_nat 38.
Definition apos : ascii := ascii_of_nat 39.
Definition lt : ascii := ascii_of_nat 60.
Definition gt : ascii := ascii_of_nat 62.

(** [strings.ReplaceAll(s, old, new)] for an [old] of one byte. *)
Fixpoint ReplaceAll (s : string) (old : ascii) (new : string) : string :=
  match s with
  | EmptyString => ""
  | String c s' =>
      if Ascii.eqb c old then new +:+ ReplaceAll s' old new
      else String c (ReplaceAll s' old new)
  end.

(** [escapeXML]. *)
Definition escapeXML (s : string) : string :=
  let s := ReplaceAll s amp "&amp;" in
  let s := ReplaceAll s lt "&lt;" in
  let s := ReplaceAll s gt "&gt;" in
  let s := ReplaceAll s apos "&apos;" in
  let s := ReplaceAll s Csv.quote "&quot;" in
  s.

(** The entity of one byte. *)
Definition entity (c : ascii) : string :=
  if Ascii.eqb c amp then "&amp;"
  else if Ascii.eqb c lt then "&lt;"
  else if Ascii.eqb c gt then "&gt;"
  else if Ascii.eqb c apos then "&apos;"
  else if Ascii.eqb c Csv.quote then "&quot;"
  else String c "".

(** Every byte replaced by its entity, in one pass. *)
Fixpoint entities (s : string) : string :=
  match s with
  | EmptyString => ""
  | String c s' => entity c +:+ entities s'
  end.

(** The bytes that open or close a tag or an attribute value. *)
Definition markup (c : ascii) : bool :=
  Ascii.eqb c lt || Ascii.eqb c gt || Ascii.eqb c apos || Ascii.eqb c Csv.quote.

(** [strings.HasPrefix]. *)
Fixpoint HasPrefix (s prefix : string) : bool :=
  match prefix, s with
  | EmptyString, _ => true
  | String _ _, EmptyString => false
  | String a prefix', String b s' => Ascii.eqb a b && HasPrefix s' prefix'
  end.

(** [strings.Index]: the index of the first instance of [substr] in [s];
    [None] stands for -1. *)
Fixpoint Index (s substr : string) : option nat :=
  if HasPrefix s substr then Some 0%nat
  else
    match s with
    | EmptyString => None
    | String _ s' => S <$> Index s' substr
    end.

(** [s[lo:]]. *)
Definition from (lo : nat) (s : string) : string :=
  substring lo (String.length s - lo) s.

(** [extractXMLValue]. *)
Definition extractXMLValue (xml tag : string) : string :=
  let startTag := "<" +:+ tag +:+ ">" in
  let endTag := "</" +:+ tag +:+ ">" in
  match Index xml startTag with
  | None => ""
  | Some startIdx =>
      let startIdx := (startIdx + String.length startTag)%nat in
      match Index (from startIdx xml) endTag with
      | None => ""
      | Some endIdx => substring startIdx endIdx xml
      end
  end.

End AuthText.

(** ** [auth]: the authentication strategies *)

Module AuthStrategies.
Import GoTime Types Http AuthText.

(** [shouldEscape] of [net/url] for a query component. *)
Definition unreserved (c : ascii) : bool :=
  let n := N_of_ascii c in
  ((48 <=? n) && (n <=? 57))%N || ((65 <=? n) && (n <=? 90))%N
  || ((97 <=? n) && (n <=? 122))%N
  || Ascii.eqb c "-" || Ascii.eqb c "_" || Ascii.eqb c "." || Ascii.eqb c "~".

Definition upperhex (n : N) : ascii :=
  match String.get (N.to_nat n) "0123456789ABCDEF" with
  | Some c => c
  | None => "0"%char
  end.

(** [url.QueryEscape]. *)
Fixpoint QueryEscape (s : string) : string :=
  match s with
  | EmptyString => ""
  | String c s' =>
      if unreserved c then String c (QueryEscape s')
      else if Ascii.eqb c " " then String "+" (QueryEscape s')
      else
        String "%" (String (upperhex (N_of_ascii c / 16))
                      (String (upperhex (N_of_ascii c mod 16)) (QueryEscape s')))
  end.

(** [url.Values.Encode] for values with one entry for each key, given in
    the order of their keys, which is the order [Encode] writes them
    in. *)
Fixpoint Encode (values : list (string * string)) : string :=
  match values with
  | [] => ""
  | [(key, value)] => QueryEscape key +:+ "=" +:+ QueryEscape value
  | (key, value) :: values' =>
      QueryEscape key +:+ "=" +:+ QueryEscape value +:+ "&" +:+ Encode values'
  end.

(** The anonymous struct the token response is decoded into. *)
Record TokenResponse := {
  access_token : string;
  refresh_token : string;
  instance_url : string;
  issued_at : string;
  token_type : string
}.

(** The anonymous struct of [authenticateOAuth]. *)
Record PasswordResponse := {
  password_access_token : string;
  password_instance_url : string;
  password_token_type : string
}.

(** The calls of [json.Unmarshal] in the package, and [url.Parse] as far
    as [extractInstanceURL] uses it: the scheme and the host of an
    address. *)
Class Decoders := {
  unmarshalAuthError : string -> option AuthError;
  unmarshalTokenResponse : string -> Result TokenResponse;
  unmarshalPasswordResponse : string -> Result PasswordResponse;
  urlParse : string -> option (string * string)
}.

(** The surroundings of an authenticator: [http.NewRequestWithContext]
    and the remote side behind [httpClient.Do]. *)
Definition NewRequest := string -> string -> option error.

Definition formRequest (url form : string) : HTTPRequest :=
  {| Method := "POST"; URL := url;
     Header := [("Content-Type", "application/x-www-form-urlencoded")];
     Payload := Some form |}.

Definition setAuthStatus (statusCode : Z) (e : AuthError) : AuthError :=
  {| ErrorType := ErrorType e; Description := Description e;
     AuthStatusCode := statusCode |}.

(** The error of a token request that was not answered with 200. *)
Definition rejection `{Decoders} (resp : Response) : error :=
  match unmarshalAuthError (RespBody resp) with
  | Some authErr => ErrAuth (setAuthStatus (Status resp) authErr)
  | None =>
      ErrOther ("authentication failed with status "
                +:+ Strconv.Itoa (Status resp) +:+ ": " +:+ RespBody resp)
  end.

(** *** [OAuthRefreshAuthenticator] *)

Module OAuthRefresh.

Record Authenticator := {
  clientID : string;
  clientSecret : string;
  refreshToken : string;
  tokenURL : string;
  currentToken : option Token
}.

(** [NewOAuthRefreshAuthenticator]. *)
Definition New (clientID clientSecret refreshToken tokenURL : string)
  : Authenticator :=
  {| clientID := clientID; clientSecret := clientSecret;
     refreshToken := refreshToken;
     tokenURL := if String.eqb tokenURL ""
                 then "https://login.salesforce.com/services/oauth2/token"
                 else tokenURL;
     currentToken := None |}.

(** [OAuthRefreshAuthenticator.Refresh]; [issued] and [now] are the two
    readings of [time.Now()].  [None] means that the script has no
    answer left for the request. *)
Definition Refresh `{Decoders} (newRequest : NewRequest) (issued now : Time)
    (a : Authenticator) (script : Script)
  : option (Result Token * Authenticator * Script) :=
  let data := Encode [("client_id", clientID a);
                      ("client_secret", clientSecret a);
                      ("grant_type", "refresh_token");
                      ("refresh_token", refreshToken a)] in
  match newRequest "POST" (tokenURL a) with
  | Some err => Some (Err (ErrWrap "failed to create request" err), a, script)
  | None =>
      match script with
      | [] => None
      | serve :: script' =>
          match serve (formRequest (tokenURL a) data) with
          | DoError err =>
              Some (Err (ErrWrap "failed to execute request" err), a, script')
          | ReadError err =>
              Some (Err (ErrWrap "failed to read response body" err), a, script')
          | Reply resp =>
              if negb (Status resp =? 200) then
                Some (Err (rejection resp), a, script')
              else
                match unmarshalTokenResponse (RespBody resp) with
                | Err err =>
                    Some (Err (ErrWrap "failed to parse token response" err),
                          a, script')
                | Ok tokenResp =>
                    let rotated :=
                      if negb (String.eqb (refresh_token tokenResp) "")
                      then refresh_token tokenResp else refreshToken a in
                    let token :=
                      {| AccessToken := access_token tokenResp;
                         Types.RefreshToken := rotated;
                         TokenType := token_type tokenResp;
                         InstanceURL := instance_url tokenResp;
                         ID := ""; IssuedAt := issued;
                         ExpiresAt := Add now (2 * Hour);
                         Scope := ""; Signature := "" |} in
                    Some (Ok token,
                          {| clientID := clientID a;
                             clientSecret := clientSecret a;
                             refreshToken := rotated;
                             tokenURL := tokenURL a;
                             currentToken := Some token |},
                          script')
                end
          end
      end
  end.

(** [OAuthRefreshAuthenticator.Authenticate]. *)
Definition Authenticate `{Decoders} := Refresh.

(** [OAuthRefreshAuthenticator.IsTokenValid], at the instant [at]. *)
Definition IsTokenValid (at' : Time) (a : Authenticator) : bool :=
  match currentToken a with
  | None => false
  | Some token => negb (IsExpired at' token)
  end.

(** [OAuthRefreshAuthenticator.GetToken]. *)
Definition GetToken (a : Authenticator) : option Token := currentToken a.

End OAuthRefresh.

(** *** [TokenAuthenticator] *)

Module Static.

Record Authenticator := { token : option Token }.

(** [NewTokenAuthenticator], with the reading of [time.Now()] as [now]. *)
Definition New (now : Time) (accessToken instanceURL : string) : Authenticator :=
  {| token := Some {| AccessToken := accessToken; Types.RefreshToken := "";
                      TokenType := "Bearer"; InstanceURL := instanceURL;
                      ID := ""; IssuedAt := now; ExpiresAt := 0;
                      Scope := ""; Signature := "" |} |}.

(** [TokenAuthenticator.Authenticate]. *)
Definition Authenticate (a : Authenticator) : Result Token :=
  match token a with
  | None => Err (ErrAuth {| ErrorType := "no_token";
                            Description := "no token available";
                            AuthStatusCode := 0 |})
  | Some t => Ok t
  end.

(** [TokenAuthenticator.Refresh]. *)
Definition Refresh (a : Authenticator) : Result Token :=
  Err (ErrAuth {| ErrorType := "refresh_not_supported";
                  Description := "static token authenticator does not support refresh";
                  AuthStatusCode := 0 |}).

(** [TokenAuthenticator.IsTokenValid], at the instant [at]. *)
Definition IsTokenValid (at' : Time) (a : Authenticator) : bool :=
  match token a with
  | None => false
  | Some t => negb (IsExpired at' t)
  end.

(** [TokenAuthenticator.GetToken] and [TokenAuthenticator.SetToken]. *)
Definition GetToken (a : Authenticator) : option Token := token a.

Definition SetToken (t : option Token) (a : Authenticator) : Authenticator :=
  {| token := t |}.

End Static.

(** *** [PasswordAuthenticator] *)

Module Password.

Record Authenticator := {
  username : string;
  password : string;
  securityToken : string;
  clientID : string;
  clientSecret : string;
  loginURL : string;
  currentToken : option Token
}.

(** [NewPasswordAuthenticator]. *)
Definition New (username password securityToken clientID clientSecret
                loginURL : string) : Authenticator :=
  {| username := username; password := password;
     securityToken := securityToken; clientID := clientID;
     clientSecret := clientSecret;
     loginURL := if String.eqb loginURL "" then "https://login.salesforce.com"
                 else loginURL;
     currentToken := None |}.

Definition setToken (a : Authenticator) (t : Token) : Authenticator :=
  {| username := username a; password := password a;
     securityToken := securityToken a; clientID := clientID a;
     clientSecret := clientSecret a; loginURL := loginURL a;
     currentToken := Some t |}.

(** [PasswordAuthenticator.authenticateOAuth]. *)
Definition authenticateOAuth `{Decoders} (newRequest : NewRequest)
    (issued now : Time) (a : Authenticator) (script : Script)
  : option (Result Token * Authenticator * Script) :=
  let tokenURL := loginURL a +:+ "/services/oauth2/token" in
  let data := Encode [("client_id", clientID a);
                      ("client_secret", clientSecret a);
                      ("grant_type", "password");
                      ("password", password a +:+ securityToken a);
                      ("username", username a)] in
  match newRequest "POST" tokenURL with
  | Some err => Some (Err (ErrWrap "failed to create request" err), a, script)
  | None =>
      match script with
      | [] => None
      | serve :: script' =>
          match serve (formRequest tokenURL data) with
          | DoError err =>
              Some (Err (ErrWrap "failed to execute request" err), a, script')
          | ReadError err =>
              Some (Err (ErrWrap "failed to read response body" err), a, script')
          | Reply resp =>
              if negb (Status resp =? 200) then
                Some (Err (rejection resp), a, script')
              else
                match unmarshalPasswordResponse (RespBody resp) with
                | Err err =>
                    Some (Err (ErrWrap "failed to parse token response" err),
                          a, script')
                | Ok tokenResp =>
                    let token :=
                      {| AccessToken := password_access_token tokenResp;
                         Types.RefreshToken := "";
                         TokenType := password_token_type tokenResp;
                         InstanceURL := password_instance_url tokenResp;
                         ID := ""; IssuedAt := issued;
                         ExpiresAt := Add now (2 * Hour);
                         Scope := ""; Signature := "" |} in
                    Some (Ok token, setToken a token, script')
                end
          end
      end
  end.

Definition attr (s : string) : string := String Csv.quote s +:+ String Csv.quote "".

(** [strings.Join(lines, "\n")]. *)
Fixpoint joinLines (l : list string) : string :=
  match l with
  | [] => ""
  | [line] => line
  | line :: l' => line +:+ String Csv.LF (joinLines l')
  end.

(** The envelope of the SOAP login, with the four values the format
    string takes. *)
Definition soapEnvelope (client user pass token : string) : string :=
  joinLines
    ["<?xml version=" +:+ attr "1.0" +:+ " encoding=" +:+ attr "utf-8" +:+ " ?>";
     "<env:Envelope";
     "    xmlns:xsd=" +:+ attr "http://www.w3.org/2001/XMLSchema";
     "    xmlns:xsi=" +:+ attr "http://www.w3.org/2001/XMLSchema-instance";
     "    xmlns:env=" +:+ attr "http://schemas.xmlsoap.org/soap/envelope/";
     "    xmlns:urn=" +:+ attr "urn:partner.soap.sforce.com" +:+ ">";
     "    <env:Header>";
     "        <urn:CallOptions>";
     "            <urn:client>" +:+ client +:+ "</urn:client>";
     "            <urn:defaultNamespace>sf</urn:defaultNamespace>";
     "        </urn:CallOptions>";
     "    </env:Header>";
     "    <env:Body>";
     "        <n1:login xmlns:n1=" +:+ attr "urn:partner.soap.sforce.com" +:+ ">";
     "            <n1:username>" +:+ user +:+ "</n1:username>";
     "            <n1:password>" +:+ pass +:+ token +:+ "</n1:password>";
     "        </n1:login>";
     "    </env:Body>";
     "</env:Envelope>"].

(** [extractInstanceURL]. *)
Definition extractInstanceURL `{Decoders} (serverURL : string) : string :=
  if String.eqb serverURL "" then ""
  else
    match urlParse serverURL with
    | None => ""
    | Some (scheme, host) => scheme +:+ "://" +:+ host
    end.

(** [PasswordAuthenticator.authenticateSOAP]. *)
Definition authenticateSOAP `{Decoders} (newRequest : NewRequest)
    (issued now : Time) (a : Authenticator) (script : Script)
  : option (Result Token * Authenticator * Script) :=
  let soapBody := soapEnvelope (clientID a) (username a)
                    (escapeXML (password a)) (securityToken a) in
  let soapURL := loginURL a +:+ "/services/Soap/u/59.0" in
  match newRequest "POST" soapURL with
  | Some err =>
      Some (Err (ErrWrap "failed to create SOAP request" err), a, script)
  | None =>
      match script with
      | [] => None
      | serve :: script' =>
          match serve {| Method := "POST"; URL := soapURL;
                         Header := [("Content-Type", "text/xml");
                                    ("SOAPAction", "login")];
                         Payload := Some soapBody |} with
          | DoError err =>
              Some (Err (ErrWrap "failed to execute SOAP request" err),
                    a, script')
          | ReadError err =>
              Some (Err (ErrWrap "failed to read SOAP response" err), a, script')
          | Reply resp =>
              if negb (Status resp =? 200) then
                Some (Err (ErrOther ("SOAP login failed with status "
                                     +:+ Strconv.Itoa (Status resp) +:+ ": "
                                     +:+ RespBody resp)),
                      a, script')
              else
                let sessionID := extractXMLValue (RespBody resp) "sessionId" in
                let serverURL := extractXMLValue (RespBody resp) "serverUrl" in
                if String.eqb sessionID "" then
                  Some (Err (ErrOther
                               "failed to extract session ID from SOAP response"),
                        a, script')
                else
                  let token :=
                    {| AccessToken := sessionID; Types.RefreshToken := "";
                       TokenType := "Bearer";
                       InstanceURL := extractInstanceURL serverURL;
                       ID := ""; IssuedAt := issued;
                       ExpiresAt := Add now (2 * Hour);
                       Scope := ""; Signature := "" |} in
                  Some (Ok token, setToken a token, script')
          end
      end
  end.

(** [PasswordAuthenticator.Authenticate]: the OAuth flow, and the SOAP
    login when that fails. *)
Definition Authenticate `{Decoders} (newRequest : NewRequest)
    (issued now : Time) (a : Authenticator) (script : Script)
  : option (Result Token * Authenticator * Script) :=
  match authenticateOAuth newRequest issued now a script with
  | None => None
  | Some (Ok token, a, script) => Some (Ok token, a, script)
  | Some (Err _, a, script) => authenticateSOAP newRequest issued now a script
  end.

(** [PasswordAuthenticator.Refresh]. *)
Definition Refresh `{Decoders} := Authenticate.

(** [PasswordAuthenticator.IsTokenValid], at the instant [at]. *)
Definition IsTokenValid (at' : Time) (a : Authenticator) : bool :=
  match currentToken a with
  | None => false
  | Some token => negb (IsExpired at' token)
  end.

End Password.

End AuthStrategies.

(** ** [salesforce]: configuration and construction of the client *)

Module SalesforceSetup.
Import GoTime Types Http AuthStrategies.

Definition DefaultAPIVersion : string := "59.0".
Definition DefaultTimeout : Duration := 30 * Second.
Definition DefaultMaxRetries : Z := 3.

(** [Config]; of the logger and the HTTP client only whether they are
    set. *)
Record Config := {
  Username : string;
  Password : string;
  SecurityToken : string;
  ClientID : string;
  ClientSecret : string;
  RefreshToken : string;
  TokenURL : string;
  BaseURL : string;
  InstanceURL : string;
  APIVersion : string;
  Timeout : Duration;
  MaxRetries : Z;
  RetryWaitMin : Duration;
  RetryWaitMax : Duration;
  Logger : bool;
  HTTPClient : bool;
  Debug : bool
}.

(** [DefaultConfig]. *)
Definition DefaultConfig : Config :=
  {| Username := ""; Password := ""; SecurityToken := ""; ClientID := "";
     ClientSecret := ""; RefreshToken := ""; TokenURL := "";
     BaseURL := "https://login.salesforce.com"; InstanceURL := "";
     APIVersion := DefaultAPIVersion; Timeout := DefaultTimeout;
     MaxRetries := DefaultMaxRetries; RetryWaitMin := 1 * Second;
     RetryWaitMax := 30 * Second; Logger := false; HTTPClient := false;
     Debug := false |}.

Definition nonEmpty (s : string) : bool := negb (String.eqb s "").

(** [Config.Validate]. *)
Definition Validate (c : Config) : option error :=
  let hasRefresh := nonEmpty (RefreshToken c) && nonEmpty (ClientID c) in
  let hasPassword := nonEmpty (Username c) && nonEmpty (Password c) in
  let hasToken := nonEmpty (InstanceURL c) in
  if negb hasRefresh && negb hasPassword && negb hasToken then
    Some (ErrOther "at least one authentication method must be configured")
  else if String.eqb (APIVersion c) "" then
    Some (ErrOther "API version is required")
  else None.

Definition Option := Config -> Config.

(** [WithOAuthRefresh]. *)
Definition WithOAuthRefresh (clientID clientSecret refreshToken : string)
  : Option := fun c =>
  {| Username := Username c; Password := Password c;
     SecurityToken := SecurityToken c; ClientID := clientID;
     ClientSecret := clientSecret; RefreshToken := refreshToken;
     TokenURL := TokenURL c; BaseURL := BaseURL c;
     InstanceURL := InstanceURL c; APIVersion := APIVersion c;
     Timeout := Timeout c; MaxRetries := MaxRetries c;
     RetryWaitMin := RetryWaitMin c; RetryWaitMax := RetryWaitMax c;
     Logger := Logger c; HTTPClient := HTTPClient c; Debug := Debug c |}.

(** [WithPasswordAuth]. *)
Definition WithPasswordAuth (username password securityToken : string)
  : Option := fun c =>
  {| Username := username; Password := password;
     SecurityToken := securityToken; ClientID := ClientID c;
     ClientSecret := ClientSecret c; RefreshToken := RefreshToken c;
     TokenURL := TokenURL c; BaseURL := BaseURL c;
     InstanceURL := InstanceURL c; APIVersion := APIVersion c;
     Timeout := Timeout c; MaxRetries := MaxRetries c;
     RetryWaitMin := RetryWaitMin c; RetryWaitMax := RetryWaitMax c;
     Logger := Logger c; HTTPClient := HTTPClient c; Debug := Debug c |}.

(** [WithInstanceURL]. *)
Definition WithInstanceURL (instanceURL : string) : Option := fun c =>
  {| Username := Username c; Password := Password c;
     SecurityToken := SecurityToken c; ClientID := ClientID c;
     ClientSecret := ClientSecret c; RefreshToken := RefreshToken c;
     TokenURL := TokenURL c; BaseURL := BaseURL c;
     InstanceURL := instanceURL; APIVersion := APIVersion c;
     Timeout := Timeout c; MaxRetries := MaxRetries c;
     RetryWaitMin := RetryWaitMin c; RetryWaitMax := RetryWaitMax c;
     Logger := Logger c; HTTPClient := HTTPClient c; Debug := Debug c |}.

(** [WithRetry]. *)
Definition WithRetry (maxRetries : Z) (waitMin waitMax : Duration) : Option :=
  fun c =>
  {| Username := Username c; Password := Password c;
     SecurityToken := SecurityToken c; ClientID := ClientID c;
     ClientSecret := ClientSecret c; RefreshToken := RefreshToken c;
     TokenURL := TokenURL c; BaseURL := BaseURL c;
     InstanceURL := InstanceURL c; APIVersion := APIVersion c;
     Timeout := Timeout c; MaxRetries := maxRetries;
     RetryWaitMin := waitMin; RetryWaitMax := waitMax;
     Logger := Logger c; HTTPClient := HTTPClient c; Debug := Debug c |}.

(** The values of the [auth.Authenticator] interface the client is built
    with. *)
Inductive Authenticator :=
| UseOAuthRefresh (a : OAuthRefresh.Authenticator)
| UsePassword (a : Password.Authenticator)
| UseStatic (a : Static.Authenticator).

(** [SalesforceClient.setupAuthenticator], with the reading of
    [time.Now()] in [NewTokenAuthenticator] as [now]. *)
Definition setupAuthenticator (now : Time) (config : Config)
  : Result Authenticator :=
  if nonEmpty (RefreshToken config) then
    let tokenURL :=
      if String.eqb (TokenURL config) ""
      then BaseURL config +:+ "/services/oauth2/token"
      else TokenURL config in
    Ok (UseOAuthRefresh
          (OAuthRefresh.New (ClientID config) (ClientSecret config)
             (RefreshToken config) tokenURL))
  else if nonEmpty (Username config) && nonEmpty (Password config) then
    Ok (UsePassword
          (Password.New (Username config) (Password config)
             (SecurityToken config) (ClientID config) (ClientSecret config)
             (BaseURL config)))
  else if nonEmpty (InstanceURL config) then
    Ok (UseStatic (Static.New now "" (InstanceURL config)))
  else Err (ErrOther "no authentication method configured").

(** The [SalesforceClient]: its configuration, its authenticator, the
    retry settings of its HTTP client, and the state it shares with that
    client. *)
Record SalesforceClient := {
  config : Config;
  authenticator : Authenticator;
  httpClient : Client;
  shared : State
}.

(** [NewClient]: the options are applied to the default configuration in
    their order. *)
Definition NewClient (now : Time) (opts : list Option) : Result SalesforceClient :=
  let config := fold_left (fun c opt => opt c) opts DefaultConfig in
  match Validate config with
  | Some err => Err (ErrWrap "invalid configuration" err)
  | None =>
      let httpClient :=
        if MaxRetries config >? 0 then
          {| hasTokenProvider := true; maxRetries := MaxRetries config;
             retryWaitMin := RetryWaitMin config;
             retryWaitMax := RetryWaitMax config |}
        else
          {| hasTokenProvider := true; maxRetries := 3;
             retryWaitMin := 1 * Second; retryWaitMax := 30 * Second |} in
      match setupAuthenticator now config with
      | Err err => Err err
      | Ok auth =>
          Ok {| config := config; authenticator := auth;
                httpClient := httpClient;
                shared := {| baseURL := ""; accessToken := ""; token := None;
                             refreshCalls := 0; samples := 0; clock := now;
                             log := [] |} |}
      end
  end.

(** [authenticator.Authenticate]. *)
Definition Authenticate `{Decoders} (newRequest : NewRequest)
    (issued now : Time) (auth : Authenticator) (script : Script)
  : option (Result Token * Authenticator * Script) :=
  match auth with
  | UseOAuthRefresh a =>
      match OAuthRefresh.Authenticate newRequest issued now a script with
      | Some (res, a, script) => Some (res, UseOAuthRefresh a, script)
      | None => None
      end
  | UsePassword a =>
      match Password.Authenticate newRequest issued now a script with
      | Some (res, a, script) => Some (res, UsePassword a, script)
      | None => None
      end
  | UseStatic a => Some (Static.Authenticate a, UseStatic a, script)
  end.

(** [SalesforceClient.Connect]. *)
Definition Connect `{Decoders} (newRequest : NewRequest) (issued now : Time)
    (c : SalesforceClient) (script : Script)
  : option (option error * SalesforceClient * Script) :=
  match Authenticate newRequest issued now (authenticator c) script with
  | None => None
  | Some (res, auth, script) =>
      let (err, st) := Salesforce.Connect res (shared c) in
      Some (err,
            {| config := config c; authenticator := auth;
               httpClient := httpClient c; shared := st |},
            script)
  end.

(** [SalesforceClient.SetAccessToken], with the reading of [time.Now()]
    as [now]. *)
Definition SetAccessToken (now : Time) (accessToken instanceURL : string)
    (c : SalesforceClient) : SalesforceClient :=
  let st := Salesforce.SetAccessToken now accessToken instanceURL (shared c) in
  {| config := config c;
     authenticator :=
       match authenticator c with
       | UseStatic tokenAuth => UseStatic (Static.SetToken (token st) tokenAuth)
       | auth => auth
       end;
     httpClient := httpClient c;
     shared := st |}.

End SalesforceSetup.

(** ** Further examples *)

Module MoreExamples.
Import GoTime Types Bulk BulkJobs.

(** A record with a value that needs quotes and a number. *)
Definition smithJones : gmap string Value :=
  <["Name" := VString "Smith, Jones"]> (<["Employees" := VInt 12]> ∅).

(** A test double for [HTTPClient] that answers the calls it receives
    from a list, one answer for each call, and keeps the calls; when the
    list is used up the connection is refused. *)
Record Scripted := {
  pending : list (Result string);
  received : list (string * string)
}.

Definition scriptedCall (method path : string) (c : Scripted)
  : Result string * Scripted :=
  match pending c with
  | [] =>
      (Err (ErrOther "connection refused"),
       {| pending := []; received := received c ++ [(method, path)] |})
  | answer :: rest =>
      (answer, {| pending := rest; received := received c ++ [(method, path)] |})
  end.

#[local] Instance scriptedClient : HTTPClient Scripted := {|
  Get path := scriptedCall "GET" path;
  Post path _ := scriptedCall "POST" path;
  Patch path _ := scriptedCall "PATCH" path;
  Put path _ := scriptedCall "PUT" path;
  Delete path := scriptedCall "DELETE" path
|}.

(** The body of a job resource, as far as the examples need it. *)
Definition jobBody (state : string) : string :=
  "{" +:+ Examples.quoted "id" +:+ ":" +:+ Examples.quoted "750xx0000000001"
  +:+ "," +:+ Examples.quoted "state" +:+ ":" +:+ Examples.quoted state +:+ "}".

Definition jobIn (state : string) : JobInfo :=
  {| ID := "750xx0000000001"; Object := ""; Operation := ""; State := state;
     ContentType := ""; ColumnDelimiter := ""; LineEnding := "";
     ExternalIdFieldName := ""; CreatedById := ""; CreatedDate := "";
     SystemModstamp := ""; ConcurrencyMode := ""; ContentURL := "";
     NumberRecordsProcessed := 0; NumberRecordsFailed := 0; Retries := 0;
     TotalProcessingTime := 0; ApiActiveProcessingTime := 0;
     ApexProcessingTime := 0; ErrorMessage := "" |}.

(** [json.Unmarshal] on the job bodies of the examples. *)
#[local] Instance exampleJobJSON : JobJSON := {|
  unmarshalJobInfo body :=
    if String.eqb body (jobBody StateInProgress) then Ok (jobIn StateInProgress)
    else if String.eqb body (jobBody StateJobComplete)
    then Ok (jobIn StateJobComplete)
    else Err (ErrOther "unexpected end of JSON input")
|}.

Definition jobsPath : string := "/services/data/v59.0/jobs/ingest/750xx0000000001".

Import Http AuthStrategies.

(** The answer of the token endpoint to a grant, and to a refresh token
    that is no longer good. *)
Definition grantBody : string :=
  "{" +:+ Examples.quoted "access_token" +:+ ":" +:+ Examples.quoted "00Dxx!fresh"
  +:+ "," +:+ Examples.quoted "instance_url" +:+ ":"
  +:+ Examples.quoted "https://na1.example.com"
  +:+ "," +:+ Examples.quoted "token_type" +:+ ":" +:+ Examples.quoted "Bearer"
  +:+ "}".

Definition invalidGrantBody : string :=
  "{" +:+ Examples.quoted "error" +:+ ":" +:+ Examples.quoted "invalid_grant"
  +:+ "," +:+ Examples.quoted "error_description" +:+ ":"
  +:+ Examples.quoted "expired access/refresh token" +:+ "}".

(** The answer of the SOAP endpoint to a login, and to a login with a
    wrong password. *)
Definition loginBody : string :=
  "<loginResponse><result><serverUrl>https://na1.example.com/services/Soap/u/59.0</serverUrl>"
  +:+ ("<" +:+ "sessionId" +:+ ">") +:+ "00Dxx!AQ4&amp;x"
  +:+ ("</" +:+ "sessionId" +:+ ">") +:+ "</result></loginResponse>".

Definition loginFaultBody : string :=
  "<soapenv:Fault><faultcode>INVALID_LOGIN</faultcode></soapenv:Fault>".

(** The decoders on the bodies of the examples. *)
#[local] Instance exampleDecoders : Decoders := {|
  unmarshalAuthError body :=
    if String.eqb body invalidGrantBody
    then Some {| ErrorType := "invalid_grant";
                 Description := "expired access/refresh token";
                 AuthStatusCode := 0 |}
    else None;
  unmarshalTokenResponse body :=
    if String.eqb body grantBody
    then Ok {| access_token := "00Dxx!fresh"; refresh_token := "";
               instance_url := "https://na1.example.com"; issued_at := "";
               token_type := "Bearer" |}
    else Err (ErrOther "invalid character '<' looking for beginning of value");
  unmarshalPasswordResponse body :=
    if String.eqb body grantBody
    then Ok {| password_access_token := "00Dxx!fresh";
               password_instance_url := "https://na1.example.com";
               password_token_type := "Bearer" |}
    else Err (ErrOther "invalid character '<' looking for beginning of value");
  urlParse url :=
    if String.eqb url "https://na1.example.com/services/Soap/u/59.0"
    then Some ("https", "na1.example.com") else None
|}.

(** [http.NewRequestWithContext] on well-formed addresses. *)
Definition newRequestOk : NewRequest := fun _ _ => None.

Definition refresher : OAuthRefresh.Authenticator :=
  OAuthRefresh.New "3MVG9" "secret" "5Aep861" "".

Definition loginUser : Password.Authenticator :=
  Password.New "user@example.com" "p<ss&word" "tok" "3MVG9" "secret" "".




(** A client configured with an instance URL alone, and with retries
    asked to be off. *)
Definition instanceOnly : list SalesforceSetup.Option :=
  [SalesforceSetup.WithInstanceURL "https://na1.example.com";
   SalesforceSetup.WithRetry 0 (2 * Second) (4 * Second)].

Definition instanceClient : SalesforceSetup.SalesforceClient :=
  {| SalesforceSetup.config :=
       fold_left (fun c opt => opt c) instanceOnly SalesforceSetup.DefaultConfig;
     SalesforceSetup.authenticator :=
       SalesforceSetup.UseStatic
         (Static.New Examples.t0 "" "https://na1.example.com");
     SalesforceSetup.httpClient := Examples.client0;
     SalesforceSetup.shared :=
       {| baseURL := ""; accessToken := ""; token := None; refreshCalls := 0;
          samples := 0; clock := Examples.t0; log := [] |} |}.

End MoreExamples.

(** * Properties *)

(** ** Token expiry *)

Section TokenExpiry.
Import GoTime Types Examples.

Lemma Sub_exceeds (t u : Time) (d : Duration) :
  minDuration <= d < maxDuration ->
  (Sub t u >? d) = (t - u >? d).
Proof.
  intros Hd. unfold Sub. rewrite !Z.gtb_ltb.
  destruct (Z.ltb_spec (t - u) minDuration);
    [| destruct (Z.ltb_spec maxDuration (t - u))];
    destruct (Z.ltb_spec d (t - u)); try reflexivity;
    first [apply Z.ltb_lt | apply Z.ltb_ge | symmetry; apply Z.ltb_lt
          | symmetry; apply Z.ltb_ge]; lia.
Qed.

(** C4, as stated, fails: a token without [ExpiresAt] is not valid
    indefinitely.  Three hours after it was issued the check reports it
    expired, although nothing but time has passed. *)
Lemma IsExpired_absent_expiry_counterexample :
  IsZero (ExpiresAt tokenNoExpiry) = true /\
  IsExpired (IssuedAt tokenNoExpiry + 1 * Hour) tokenNoExpiry = false /\
  IsExpired (IssuedAt tokenNoExpiry + 3 * Hour) tokenNoExpiry = true.
Proof. vm_compute. auto. Qed.

(** C4, amended: a token without [ExpiresAt] is reported expired exactly
    when more than two hours have passed since [IssuedAt]; a token with
    [ExpiresAt] is reported expired exactly at the instants later than
    [ExpiresAt] minus five minutes. *)
Theorem IsExpired_policy (now : Time) (t : Token) :
  IsExpired now t = true <->
  (ExpiresAt t = 0 /\ now - IssuedAt t > 2 * Hour) \/
  (ExpiresAt t <> 0 /\ now > ExpiresAt t - 5 * Minute).
Proof.
  unfold IsExpired, IsZero, Since, After, Add.
  destruct (Z.eqb_spec (ExpiresAt t) 0) as [Hz | Hnz].
  - rewrite Sub_exceeds by (vm_compute; split; [discriminate | reflexivity]).
    rewrite Z.gtb_ltb, Z.ltb_lt. split.
    + intros Hlt. left. split; [assumption | lia].
    + intros [[_ Hgt] | [Hne _]]; [lia | contradiction].
  - rewrite Z.ltb_lt. split.
    + intros Hlt. right. split; [assumption | lia].
    + intros [[Hz _] | [_ Hgt]]; [contradiction | lia].
Qed.

(** The expiry check of the second [types] package has neither the
    two-hour fallback nor the five-minute margin. *)
Lemma IsExpired_shared (now : Time) (t : TypesShared.Token) :
  TypesShared.IsExpired now t = true <->
  TypesShared.ExpiresAt t <> 0 /\ now > TypesShared.ExpiresAt t.
Proof.
  unfold TypesShared.IsExpired, IsZero, After.
  destruct (Z.eqb_spec (TypesShared.ExpiresAt t) 0) as [Hz | Hnz].
  - split; [discriminate | intros [Hne _]; contradiction].
  - rewrite Z.ltb_lt. split; [intros Hlt; split; [assumption | lia] |].
    intros [_ Hgt]. lia.
Qed.

End TokenExpiry.

(** ** The request executor: one attempt *)

Section DoRequest.
Import GoTime Types GoFloat Http Examples.
Context `{JSON}.

Lemma count_app (p : Event -> bool) (l1 l2 : list Event) :
  count p (l1 ++ l2) = (count p l1 + count p l2)%nat.
Proof.
  induction l1 as [| ev l1 IH]; simpl; [reflexivity |].
  destruct (p ev); rewrite IH; reflexivity.
Qed.


Lemma drain_drain (body : Body) : drain (drain body) = drain body.
Proof. destruct body; reflexivity. Qed.

(** What one call of [doRequest] does once the request can be built: it
    sends the request and branches on the answer. *)
Lemma doRequest_send (env : Env) (c : Client) (method path : string)
    (serve : HTTPRequest -> RoundTrip) (script : Script) (body : Body)
    (payload : option string) (st : State) :
  bodyReader body = Ok payload ->
  (forall m u, newRequest env m u = None) ->
  doRequest env c method path (serve :: script) body st =
  let req := requestFor c method path payload st in
  let st1 := record (EvSend req) st in
  match serve req with
  | DoError err =>
      Some (Err (ErrWrap "request failed" err), script, drain body, st1)
  | ReadError err =>
      Some (Err (ErrWrap "failed to read response" err), script, drain body, st1)
  | Reply resp =>
      if (Status resp <? 200) || (Status resp >=? 300) then
        if Status resp =? StatusTooManyRequests then
          Some (Err (ErrRateLimit (rateLimitError resp)), script, drain body, st1)
        else if (Status resp =? StatusUnauthorized) && hasTokenProvider c then
          match RefreshToken env st1 with
          | (None, st2) => doRequest env c method path script (drain body) st2
          | (Some _, st2) =>
              Some (Err (ParseAPIError (Status resp) (RespBody resp)),
                    script, drain body, st2)
          end
        else
          Some (Err (ParseAPIError (Status resp) (RespBody resp)),
                script, drain body, st1)
      else Some (Ok (RespBody resp), script, drain body, st1)
  end.
Proof.
  intros Hbody Hnew. simpl. unfold requestFor.
  destruct (credentials c st) as [base tok].
  rewrite Hbody, Hnew. reflexivity.
Qed.

Lemma doRequest_2xx (env : Env) (c : Client) (method path : string)
    (resp : Response) (script : Script) (body : Body)
    (payload : option string) (st : State) :
  bodyReader body = Ok payload ->
  (forall m u, newRequest env m u = None) ->
  200 <= Status resp < 300 ->
  doRequest env c method path ((fun _ => Reply resp) :: script) body st =
  Some (Ok (RespBody resp), script, drain body,
        record (EvSend (requestFor c method path payload st)) st).
Proof.
  intros Hbody Hnew Hst. rewrite (doRequest_send _ _ _ _ _ _ _ payload) by assumption.
  cbv zeta.
  replace (Status resp <? 200) with false by (symmetry; apply Z.ltb_ge; lia).
  replace (Status resp >=? 300) with false
    by (symmetry; rewrite Z.geb_leb; apply Z.leb_gt; lia).
  reflexivity.
Qed.




End DoRequest.

(** ** Refresh and replay on 401 *)

Section RefreshAndReplay.
Import GoTime Types GoFloat Http Examples.


(** The replay is the request of the first attempt with the refreshed
    credential: same method and path, the bearer token of the new token,
    and the instance address of the new token (the base address of the
    client when the token names none).  Its body is
    the body of the first attempt unless that was a reader, which the
    first attempt has read to its end. *)
Lemma doRequest_replay_request `{JSON} (env : Env) (c : Client)
    (method path : string) (r401 r2xx : Response) (script : Script)
    (body : Body) (payload payload' : option string) (st : State) (tok : Token) :
  hasTokenProvider c = true ->
  (forall m u, newRequest env m u = None) ->
  Status r401 = StatusUnauthorized ->
  200 <= Status r2xx < 300 ->
  bodyReader body = Ok payload ->
  bodyReader (drain body) = Ok payload' ->
  authRefresh env (refreshCalls st) = Ok tok ->
  exists st',
    doRequest env c method path
      ((fun _ => Reply r401) :: (fun _ => Reply r2xx) :: script) body st =
    Some (Ok (RespBody r2xx), script, drain body, st') /\
    log st' =
      (log st ++
       [EvSend (requestFor c method path payload st);
        EvRefresh;
        EvSend (buildRequest method
                  ((if negb (String.eqb (InstanceURL tok) "")
                    then InstanceURL tok else baseURL st) +:+ path)
                  (AccessToken tok) payload')])%list.
Proof.
  intros Hprov Hnew H401 H2xx Hbody Hbody' Href.
  rewrite (doRequest_send _ _ _ _ _ _ _ payload) by assumption.
  cbv zeta. rewrite H401, Hprov. cbn [andb orb Z.ltb Z.geb Z.eqb StatusUnauthorized
    StatusTooManyRequests Z.compare Pos.compare Pos.compare_cont].
  unfold RefreshToken. cbn [record setLog refreshCalls]. rewrite Href.
  rewrite (doRequest_2xx _ _ _ _ _ _ _ payload') by assumption.
  eexists. split; [rewrite drain_drain; reflexivity |].
  unfold requestFor, credentials. rewrite Hprov. simpl.
  rewrite <- !app_assoc. simpl.
  destruct (negb (String.eqb (InstanceURL tok) "")); reflexivity.
Qed.

#[local] Existing Instance exampleJSON.




End RefreshAndReplay.

(** ** The retry loop *)

Section RetryLoop.
Import GoTime Types GoFloat Http Examples.
Context `{JSON}.


Lemma sleep_done (env : Env) (wait : Duration) (st : State) (t : Time) :
  ctxDoneAt env = Some t ->
  t < clock st + Z.max wait 0 ->
  sleep env wait st =
  (ContextDone, setClock (record (EvSleep wait) st) (Z.max (clock st) t)).
Proof.
  intros Hctx Hlt. unfold sleep. rewrite Hctx. simpl.
  replace (t <? clock st + Z.max wait 0) with true
    by (symmetry; apply Z.ltb_lt; exact Hlt).
  reflexivity.
Qed.

(** One iteration of the loop of [Request] that ends in a retryable error
    before the last attempt: the executor sleeps for the computed backoff
    and either gives up, because the context is done, or goes on. *)
Lemma attempts_retryable (env : Env) (c : Client) (method path : string)
    (n : nat) (attempt : Z) (lastErr : option error)
    (script script' : Script) (body body' : Body) (st st' : State)
    (err : error) :
  doRequest env c method path script body st = Some (Err err, script', body', st') ->
  isRetryable err = true ->
  attempt < maxRetries c ->
  attempts env c method path (S n) attempt lastErr script body st =
  match sleep env (calculateBackoff (arch env) c attempt
                     (randFloat64 env (samples st'))) (drawSample st') with
  | (ContextDone, st2) =>
      Some (Err (ErrContext (ctxErr env)), script', body', st2)
  | (TimerFired, st2) =>
      attempts env c method path n (attempt + 1) (Some err) script' body' st2
  end.
Proof.
  intros Hdo Hretry Hlt. cbn [attempts]. rewrite Hdo, Hretry.
  replace (attempt <? maxRetries c) with true
    by (symmetry; apply Z.ltb_lt; exact Hlt).
  reflexivity.
Qed.

Lemma attempts_fatal (env : Env) (c : Client) (method path : string)
    (n : nat) (attempt : Z) (lastErr : option error)
    (script script' : Script) (body body' : Body) (st st' : State)
    (err : error) :
  doRequest env c method path script body st = Some (Err err, script', body', st') ->
  isRetryable err = false ->
  attempts env c method path (S n) attempt lastErr script body st =
  Some (Err err, script', body', st').
Proof. intros Hdo Hfatal. cbn [attempts]. rewrite Hdo, Hfatal. reflexivity. Qed.




End RetryLoop.

(** ** Throttling and cancellation *)

Section Throttling.
Import GoTime Types GoFloat Http Examples.

#[local] Existing Instance exampleJSON.




(** C8: when the context is done while the executor sleeps between two
    attempts, [Request] returns the context's error at that instant: the
    clock stands at the instant of the cancellation, not at the end of the
    backoff, and nothing is sent after the sleep began. *)
Theorem Request_canceled_during_backoff `{JSON} (env : Env) (c : Client)
    (method path : string) (n : nat) (attempt : Z) (lastErr : option error)
    (script script' : Script) (body body' : Body) (st st' : State)
    (err : error) (t : Time) :
  doRequest env c method path script body st = Some (Err err, script', body', st') ->
  isRetryable err = true ->
  attempt < maxRetries c ->
  ctxDoneAt env = Some t ->
  let wait := calculateBackoff (arch env) c attempt
                (randFloat64 env (samples st')) in
  clock st' <= t < clock st' + wait ->
  exists st'',
    attempts env c method path (S n) attempt lastErr script body st =
    Some (Err (ErrContext (ctxErr env)), script', body', st'') /\
    clock st'' = t /\
    log st'' = (log st' ++ [EvSleep wait])%list.
Proof.
  intros Hdo Hretry Hlt Hctx wait Ht.
  rewrite (attempts_retryable env c method path n attempt lastErr _ _ _ _ _ _ _
             Hdo Hretry Hlt).
  rewrite (sleep_done env _ _ t Hctx) by (simpl; fold wait; lia).
  eexists. split; [reflexivity |]. simpl. split; [lia | reflexivity].
Qed.

Lemma Request_canceled_during_backoff_witness :
  exists st'',
    Request envCanceled client0 "GET" limitsPath
      [reply 503 "" bodyUnavailableObject; reply 200 "" "ok"] BodyNil st0
    = Some (Err (ErrContext Canceled), [reply 200 "" "ok"], BodyNil, st'') /\
    clock st'' = t0 + 400 * Millisecond /\
    log st'' = [EvSend (requestFor client0 "GET" limitsPath None st0);
                EvSleep (1 * Second)].
Proof.
  apply (Request_canceled_during_backoff envCanceled client0 "GET" limitsPath
           3 0 None
           [reply 503 "" bodyUnavailableObject; reply 200 "" "ok"]
           [reply 200 "" "ok"] BodyNil BodyNil st0
           (record (EvSend (requestFor client0 "GET" limitsPath None st0)) st0)
           (ErrAPI (setStatus 503 errUnavailable))
           (t0 + 400 * Millisecond)); try reflexivity.
  vm_compute. split; [discriminate | reflexivity].
Defined.

End Throttling.

(** ** Which errors are retried *)

Section Retryable.
Import GoTime Types GoFloat Http Examples.

(** [APIError.IsRetryable] by cases: the two error codes, status 429, and
    the statuses from 500 on. *)
Lemma IsRetryable_cases (e : APIError) :
  IsRetryable e = true <->
  Code e = ErrorCodeRequestLimit \/ Code e = ErrorCodeUnableToLockRow \/
  StatusCode e = StatusTooManyRequests \/ 500 <= StatusCode e.
Proof.
  unfold IsRetryable.
  destruct (String.eqb_spec (Code e) ErrorCodeRequestLimit) as [H1 | H1];
    [simpl; tauto |].
  destruct (String.eqb_spec (Code e) ErrorCodeUnableToLockRow) as [H2 | H2];
    [simpl; tauto |].
  simpl. rewrite orb_true_iff, Z.eqb_eq, Z.geb_leb, Z.leb_le. tauto.
Qed.

(** [isRetryable] of the [http] package retries a [RateLimitError] and a
    retryable [*APIError], and nothing else: an [APIErrors] list is never
    retried, whatever it holds. *)
Lemma isRetryable_cases (err : error) :
  isRetryable err = true <->
  (exists e, err = ErrRateLimit e) \/
  (exists e, err = ErrAPI e /\ IsRetryable e = true).
Proof.
  destruct err; simpl; split;
    try (intros Hx; discriminate Hx);
    try (intros [[e0 He] | [e0 [He _]]]; discriminate He).
  - intros Hr. right. eauto.
  - intros [[e0 He] | [e0 [He Hr]]]; [discriminate He |].
    injection He as ->. exact Hr.
  - intros _. left. eauto.
  - intros _. reflexivity.
Qed.

Lemma ParseAPIError_list `{JSON} (statusCode : Z) (body : string)
    (e : APIError) (es : list APIError) :
  unmarshalAPIErrors body = Some (e :: es) ->
  ParseAPIError statusCode body =
  ErrAPIErrors (map (setStatus statusCode) (e :: es)).
Proof. intros Hlist. unfold ParseAPIError. rewrite Hlist. reflexivity. Qed.

(** A response outside 2xx that is neither a 429 nor a 401 met with a
    token provider is turned into an error by [ParseAPIError]. *)
Lemma doRequest_error_status `{JSON} (env : Env) (c : Client)
    (method path : string) (resp : Response) (script : Script) (body : Body)
    (payload : option string) (st : State) :
  bodyReader body = Ok payload ->
  (forall m u, newRequest env m u = None) ->
  Status resp < 200 \/ 300 <= Status resp ->
  Status resp <> StatusTooManyRequests ->
  Status resp <> StatusUnauthorized \/ hasTokenProvider c = false ->
  doRequest env c method path ((fun _ => Reply resp) :: script) body st =
  Some (Err (ParseAPIError (Status resp) (RespBody resp)), script, drain body,
        record (EvSend (requestFor c method path payload st)) st).
Proof.
  intros Hbody Hnew Hout H429 H401.
  rewrite (doRequest_send _ _ _ _ _ _ _ payload) by assumption.
  cbv zeta.
  replace ((Status resp <? 200) || (Status resp >=? 300)) with true
    by (symmetry; rewrite orb_true_iff, Z.ltb_lt, Z.geb_leb, Z.leb_le; lia).
  replace (Status resp =? StatusTooManyRequests) with false
    by (symmetry; apply Z.eqb_neq; exact H429).
  destruct H401 as [H401 | Hprov].
  - replace (Status resp =? StatusUnauthorized) with false
      by (symmetry; apply Z.eqb_neq; exact H401).
    reflexivity.
  - rewrite Hprov, andb_false_r. reflexivity.
Qed.

(** An error that [isRetryable] does not accept ends [Request] with the
    first attempt. *)
Lemma Request_fatal `{JSON} (env : Env) (c : Client) (method path : string)
    (script script' : Script) (body body' : Body) (st st' : State)
    (err : error) :
  0 <= maxRetries c ->
  doRequest env c method path script body st = Some (Err err, script', body', st') ->
  isRetryable err = false ->
  Request env c method path script body st = Some (Err err, script', body', st').
Proof.
  intros Hretries Hdo Hfatal. unfold Request.
  replace (Z.to_nat (maxRetries c + 1)) with (S (Z.to_nat (maxRetries c)))
    by lia.
  exact (attempts_fatal env c method path _ 0 None _ _ _ _ _ _ _ Hdo Hfatal).
Qed.

(** A server error whose body is a list of errors is never retried: the
    call ends with the one request. *)
Lemma Request_error_list_fatal `{JSON} (env : Env) (c : Client)
    (method path : string) (resp : Response) (script : Script) (body : Body)
    (payload : option string) (st : State) (e : APIError) (es : list APIError) :
  0 <= maxRetries c ->
  bodyReader body = Ok payload ->
  (forall m u, newRequest env m u = None) ->
  500 <= Status resp ->
  unmarshalAPIErrors (RespBody resp) = Some (e :: es) ->
  Request env c method path ((fun _ => Reply resp) :: script) body st =
  Some (Err (ErrAPIErrors (map (setStatus (Status resp)) (e :: es))),
        script, drain body,
        record (EvSend (requestFor c method path payload st)) st).
Proof.
  intros Hretries Hbody Hnew H5xx Hlist.
  apply Request_fatal; [exact Hretries | | reflexivity].
  rewrite <- (ParseAPIError_list (Status resp) _ e es Hlist).
  apply doRequest_error_status; try assumption.
  - right. lia.
  - unfold StatusTooManyRequests. lia.
  - left. unfold StatusUnauthorized. lia.
Qed.

#[local] Existing Instance exampleJSON.

(** C7 at the failing input: a 503 response whose body is a JSON array of
    errors, the format of the REST API.  [ParseAPIError] returns it as
    [APIErrors]; [types.IsRetryableError] counts it as retryable, but
    [isRetryable] of the [http] package does not, and [Request] returns
    after the first attempt without a retry.  The same error sent as a
    single JSON object is retried. *)
Theorem Request_error_list_not_retried :
  let err := ErrAPIErrors [setStatus 503 errUnavailable] in
  ParseAPIError 503 bodyUnavailable = err /\
  IsRetryableError err = true /\
  isRetryable err = false /\
  Request env0 client0 "GET" limitsPath
    [reply 503 "" bodyUnavailable; reply 200 "" "ok"] BodyNil st0
  = Some (Err err, [reply 200 "" "ok"], BodyNil,
          record (EvSend (requestFor client0 "GET" limitsPath None st0)) st0) /\
  exists st',
    Request env0 client0 "GET" limitsPath
      [reply 503 "" bodyUnavailableObject; reply 200 "" "ok"] BodyNil st0
    = Some (Ok "ok", [], BodyNil, st') /\
    sends (log st') = 2%nat.
Proof.
  cbv zeta. repeat split; try (vm_compute; reflexivity).
  eexists. vm_compute. split; reflexivity.
Qed.

End Retryable.

(** ** The backoff *)

Section Backoff.
Import GoTime Types GoFloat Http Examples.

Lemma jitter_bounds (wait r : Q) :
  (0 <= wait)%Q -> (0 <= r <= 1)%Q ->
  (0 <= wait + wait * (2 # 10) * (r * 2 - 1))%Q /\
  (wait + wait * (2 # 10) * (r * 2 - 1) <= wait * (12 # 10))%Q.
Proof. intros Hw [Hr0 Hr1]. split; nra. Qed.

(** As long as the jittered wait fits into an int64 the backoff is as
    the specification has it: between zero and [retryWaitMax], and at most
    1.2 times the exponential wait.  The waits of the configuration are
    taken to be non-negative. *)
Lemma calculateBackoff_in_range (a : Arch) (c : Client) (attempt : Z) (r : Q) :
  0 <= retryWaitMin c ->
  0 <= retryWaitMax c ->
  (0 <= r <= 1)%Q ->
  (inject_Z (retryWaitMin c) * 2 ^ attempt * (12 # 10) <= inject_Z maxInt64)%Q ->
  0 <= calculateBackoff a c attempt r <= retryWaitMax c /\
  (inject_Z (calculateBackoff a c attempt r)
   <= inject_Z (retryWaitMin c) * 2 ^ attempt * (12 # 10))%Q.
Proof.
  intros Hmin Hmax Hr Hfit. unfold calculateBackoff.
  set (wait := (inject_Z (retryWaitMin c) * 2 ^ attempt)%Q) in *.
  assert (Hwait : (0 <= wait)%Q).
  { apply Qmult_le_0_compat.
    - change 0%Q with (inject_Z 0). rewrite <- Zle_Qle. exact Hmin.
    - apply Qpower_0_le. discriminate. }
  set (x := (wait + wait * (2 # 10) * (r * 2 - 1))%Q).
  destruct (jitter_bounds wait r Hwait Hr) as [Hx0 Hx1]. fold x in Hx0, Hx1.
  assert (Hfloor0 : 0 <= Qfloor x).
  { change 0 with (Qfloor 0). apply Qfloor_resp_le. exact Hx0. }
  assert (Hfloor1 : (inject_Z (Qfloor x) <= wait * (12 # 10))%Q).
  { eapply Qle_trans; [apply Qfloor_le | exact Hx1]. }
  assert (Hfits : Qfloor x <= maxInt64).
  { rewrite Zle_Qle. eapply Qle_trans; [exact Hfloor1 | exact Hfit]. }
  assert (Hconv : int64_of_float64 a x = Qfloor x).
  { unfold int64_of_float64, truncate.
    rewrite (proj2 (Qle_bool_iff 0 x) Hx0).
    replace (minInt64 <=? Qfloor x) with true
      by (symmetry; apply Z.leb_le; unfold minInt64; lia).
    replace (Qfloor x <=? maxInt64) with true
      by (symmetry; apply Z.leb_le; exact Hfits).
    reflexivity. }
  rewrite Hconv.
  destruct (Z.gtb_spec (Qfloor x) (retryWaitMax c)) as [Hgt | Hle].
  - split; [lia |].
    eapply Qle_trans; [| exact Hfloor1]. rewrite <- Zle_Qle. lia.
  - split; [lia | exact Hfloor1].
Qed.

#[local] Existing Instance exampleJSON.

(** C6 at the failing input: with [WithRetry(40, time.Second,
    30*time.Second)] the wait computed after attempt 34 is [2^34] seconds,
    give or take the jitter, which is beyond the range of an int64 count
    of nanoseconds.  On amd64 the conversion to [time.Duration] yields the
    smallest int64, the comparison with [retryWaitMax] fails, and the
    negative value is returned (on arm64 the conversion saturates and the
    cap holds).  Two attempts earlier the cap still works.  A call that
    meets 36 retryable failures in a row asks for the negative wait
    twice. *)
Theorem calculateBackoff_overflow :
  calculateBackoff amd64 client40 34 0 = minInt64 /\
  calculateBackoff amd64 client40 34 (1 # 2) = minInt64 /\
  calculateBackoff amd64 client40 34 (999 # 1000) = minInt64 /\
  minInt64 < 0 /\
  calculateBackoff arm64 client40 34 (1 # 2) = retryWaitMax client40 /\
  calculateBackoff amd64 client40 32 (999 # 1000) = retryWaitMax client40 /\
  exists st',
    Request env0 client40 "GET" limitsPath
      (replicate 36 (reply 503 "" bodyUnavailableObject)
       ++ [reply 200 "" "ok"])%list BodyNil st0
    = Some (Ok "ok", [], BodyNil, st') /\
    sleeps (log st') =
      (map (fun n => n * Second) ([1; 2; 4; 8; 16] ++ replicate 29 30)
       ++ [minInt64; minInt64])%list.
Proof.
  repeat split; try (vm_compute; reflexivity).
  eexists. vm_compute. split; reflexivity.
Qed.

End Backoff.

(** ** The CSV reader *)

Section CsvReader.
Import Types Csv.

Lemma skipLine_length (s : string) :
  (String.length (skipLine s) <= String.length s)%nat.
Proof.
  induction s as [| c s IH]; simpl; [lia |].
  destruct (Ascii.eqb c LF); simpl; lia.
Qed.

Lemma skipEmptyLines_length (s : string) :
  (String.length (skipEmptyLines s) <= String.length s)%nat.
Proof.
  induction s as [| c s IH]; simpl; [lia |].
  destruct (Ascii.eqb c LF); simpl; lia.
Qed.

Lemma normalize_length (s : string) :
  (String.length (normalize s) <= String.length s)%nat.
Proof.
  assert (Hboth : forall s,
             (String.length (normalize s) <= String.length s)%nat /\
             forall c, (String.length (normalize (String c s))
                        <= S (String.length s))%nat).
  { clear s. induction s as [| c s [IH1 IH2]].
    - split; [simpl; lia |]. intros c. simpl.
      destruct (Ascii.eqb c CR); simpl; lia.
    - split; [apply IH2 |]. intros c0. cbn [normalize].
      destruct (Ascii.eqb c0 CR).
      + destruct (Ascii.eqb c LF).
        * specialize (IH2 c). simpl in *. lia.
        * specialize (IH2 c). simpl in *. lia.
      + specialize (IH2 c). simpl in *. lia. }
  apply Hboth.
Qed.

Lemma scan_length_le (s : string) :
  forall m cur fields res rest,
    scan m s cur fields = (res, rest) ->
    (String.length rest <= String.length s)%nat.
Proof.
  induction s as [| c s IH]; intros m cur fields res rest Hscan.
  - destruct m; simpl in Hscan; inversion Hscan; subst; simpl; lia.
  - pose proof (skipLine_length s) as Hskip.
    destruct m; cbn [scan] in Hscan;
      repeat match type of Hscan with
             | (if ?b then _ else _) = _ => destruct b
             end;
      first [ apply IH in Hscan; simpl; lia
            | inversion Hscan; subst; simpl; lia ].
Qed.

(** Reading a record takes at least the first byte of a non-empty
    input. *)
Lemma scan_length (s : string) (m : Mode) (c : ascii) (cur : string)
    (fields : list string) (res : ReadResult) (rest : string) :
  scan m (String c s) cur fields = (res, rest) ->
  (String.length rest <= String.length s)%nat.
Proof.
  intros Hscan. pose proof (skipLine_length s) as Hskip.
  destruct m; cbn [scan] in Hscan;
    repeat match type of Hscan with
           | (if ?b then _ else _) = _ => destruct b
           end;
    first [ apply scan_length_le in Hscan; lia
          | inversion Hscan; subst; simpl; lia ].
Qed.

Lemma readRecord_length (s : string) (res : ReadResult) (rest : string) :
  readRecord s = (res, rest) ->
  res <> ReadEOF ->
  (String.length rest < String.length s)%nat.
Proof.
  unfold readRecord. intros Hread Hne.
  pose proof (skipEmptyLines_length s) as Hskip.
  destruct (skipEmptyLines s) as [| c s1].
  - inversion Hread; subst. contradiction.
  - apply scan_length in Hread. simpl in Hskip. lia.
Qed.

Lemma Read_length (r r' : Reader) (res : ReadResult) :
  Read r = (res, r') ->
  res <> ReadEOF ->
  (String.length (unread r') < String.length (unread r))%nat.
Proof.
  unfold Read. intros Hread Hne.
  destruct (readRecord (unread r)) as [res0 rest] eqn:Hrec.
  assert (Hlen : res0 <> ReadEOF ->
                 (String.length rest < String.length (unread r))%nat)
    by (apply readRecord_length; exact Hrec).
  destruct res0 as [| dst | dst err].
  - inversion Hread; subst. contradiction.
  - repeat match type of Hread with
           | (if ?b then _ else _) = _ => destruct b
           end;
      inversion Hread; subst; simpl; apply Hlen; discriminate.
  - inversion Hread; subst; simpl; apply Hlen; discriminate.
Qed.

(** Once the number of fields is fixed, a record with another number of
    fields is not delivered: [Read] fails with [ErrFieldCount]. *)
Lemma Read_field_count (r : Reader) (dst : list string) (rest : string) :
  0 < FieldsPerRecord r ->
  readRecord (unread r) = (ReadRecord dst, rest) ->
  fieldCount dst <> FieldsPerRecord r ->
  fst (Read r) = ReadFailed dst ErrFieldCount.
Proof.
  intros Hpos Hrec Hne. unfold Read. rewrite Hrec.
  replace (FieldsPerRecord r >? 0) with true
    by (symmetry; rewrite Z.gtb_ltb; apply Z.ltb_lt; exact Hpos).
  replace (fieldCount dst =? FieldsPerRecord r) with false
    by (symmetry; apply Z.eqb_neq; exact Hne).
  reflexivity.
Qed.

End CsvReader.

(** ** Bulk results and uploads *)

Section BulkResults.
Import Types Csv Bulk Examples.

(** The fuel of [parseCSV] suffices: with more fuel than unread bytes the
    loop runs until the reader reports the end of the input or an
    error. *)
Lemma readRows_total (fuel : nat) :
  forall (reader : Reader) (headers : list string)
         (records : list (gmap string Value)),
    (String.length (unread reader) < fuel)%nat ->
    exists res, readRows fuel reader headers records = Some res.
Proof.
  induction fuel as [| fuel IH]; intros reader headers records Hlen; [lia |].
  cbn [readRows].
  destruct (Read reader) as [[| row | dst err] reader'] eqn:Hread; eauto.
  apply IH. apply Read_length in Hread; [lia | discriminate].
Qed.

(** [parseCSV] returns on every input. *)
Lemma parseCSV_total (data : string) : exists res, parseCSV data = Some res.
Proof.
  unfold parseCSV.
  destruct (Read (NewReader data)) as [[| headers | dst err] reader'] eqn:Hread;
    eauto.
  apply readRows_total.
  apply Read_length in Hread; [| discriminate].
  pose proof (normalize_length data). simpl in Hread. lia.
Qed.

(** A body of nothing but line breaks ends before any header row, like
    the empty body. *)
Lemma parseCSV_blank (n : nat) :
  parseCSV (lines (replicate n "")) = Some (Ok []).
Proof.
  assert (Hnorm : forall k, normalize (lines (replicate k "")) = lines (replicate k "")).
  { intros k. induction k as [| k IH]; [reflexivity |].
    cbn [replicate lines]. simpl. rewrite IH. reflexivity. }
  assert (Hskip : forall k, skipEmptyLines (lines (replicate k "")) = "").
  { intros k. induction k as [| k IH]; [reflexivity | exact IH]. }
  unfold parseCSV, Read, NewReader, readRecord. simpl.
  rewrite Hnorm, Hskip. reflexivity.
Qed.

#[local] Existing Instance fakeClient.

(** C10: on an empty body the reader reports the end of the input before
    any header row, [parseCSV] returns an empty list of records and no
    error, and so does [GetSuccessfulRecords] when the server answers with
    an empty body. *)
Theorem GetSuccessfulRecords_empty_body {C : Type} `{HTTPClient C}
    (s : Service) (jobID : string) (c c' : C) :
  Get (resultsPath s jobID "/successfulResults") c = (Ok "", c') ->
  parseCSV "" = Some (Ok []) /\
  GetSuccessfulRecords s jobID c = (Some (Ok []), c').
Proof.
  intros Hget. split; [reflexivity |].
  unfold GetSuccessfulRecords. rewrite Hget. reflexivity.
Qed.

Lemma GetSuccessfulRecords_empty_body_witness :
  parseCSV "" = Some (Ok []) /\
  GetSuccessfulRecords service59 "750xx0000000001" (serving "") =
  (Some (Ok []),
   {| answer := fun _ _ => Ok "";
      calls := [("GET",
                 "/services/data/v59.0/jobs/ingest/750xx0000000001/successfulResults",
                 Http.BodyNil)] |}).
Proof.
  apply (GetSuccessfulRecords_empty_body service59 "750xx0000000001"
           (serving "")).
  reflexivity.
Defined.

(** C5 at the failing input: the second line has two fields under a
    header of three.  The reader has fixed the number of fields with the
    header and rejects the line; [parseCSV] and [GetFailedRecords] return
    the error, and the well-formed row after it is not read.  A row with
    an extra column fails in the same way.  The body of the specification,
    whose row has an empty last cell, is parsed, with [Name] present and
    empty. *)
Theorem parseCSV_short_row_fails :
  let rowError := ErrWrap "failed to read row" (parseError ErrFieldCount) in
  parseCSV shortRowBody = Some (Err rowError) /\
  fst (GetFailedRecords service59 "750xx0000000001" (serving shortRowBody))
  = Some (Err rowError) /\
  parseCSV extraColumnBody = Some (Err rowError) /\
  exists record,
    parseCSV failedBody = Some (Ok [record]) /\
    getString record "sf__Id" = "001xx0000000001" /\
    getString record "sf__Error" = "REQUIRED_FIELD_MISSING: Name" /\
    record !! "Name" = Some (VString "").
Proof.
  cbv zeta. repeat split; try (vm_compute; reflexivity).
  eexists. split; [vm_compute; reflexivity |].
  repeat split; vm_compute; reflexivity.
Qed.

(** C9: with no records [UploadCSV] returns nil and leaves the client
    untouched, whatever the client is: no method of the client is
    called. *)
Theorem UploadCSV_no_records {C : Type} `{HTTPClient C}
    (rangeKeys : gmap string Value -> list string)
    (s : Service) (jobID : string) (columns : list string) (c : C) :
  UploadCSV rangeKeys s jobID [] columns c = (None, c).
Proof. reflexivity. Qed.

(** With the recording client: no call is recorded for an empty record
    set, and exactly one [PUT] to the batch endpoint, with the CSV text as
    body, for one record. *)
Lemma UploadCSV_calls :
  calls (snd (UploadCSV sortedKeys service59 "750xx0000000001" [] ["Name"]
                (serving ""))) = [] /\
  calls (snd (UploadCSV sortedKeys service59 "750xx0000000001" [acme] []
                (serving ""))) =
  [("PUT", "/services/data/v59.0/jobs/ingest/750xx0000000001/batches",
    Http.BodyReader (lines ["Name"; "Acme"]))].
Proof. split; vm_compute; reflexivity. Qed.

End BulkResults.

(** ** Concurrent refreshes *)

Section ConcurrentRefresh.
Import Types Auth Examples.

Lemma countIf_cons (p : PC -> bool) (pc : PC) (l : list PC) :
  countIf p (pc :: l) = ((if p pc then 1 else 0) + countIf p l)%nat.
Proof.
  unfold countIf. rewrite filter_cons.
  destruct (p pc); simpl; reflexivity.
Qed.

(** Moving one caller changes a count by what the caller's old and new
    positions contribute to it. *)
Lemma countIf_insert (p : PC -> bool) (l : list PC) :
  forall (i : nat) (pc pc' : PC),
    l !! i = Some pc ->
    (countIf p (<[i := pc']> l) + (if p pc then 1 else 0)
     = countIf p l + (if p pc' then 1 else 0))%nat.
Proof.
  induction l as [| a l IH]; intros i pc pc' Hi; [discriminate |].
  destruct i as [| i]; simpl in *.
  - injection Hi as ->. rewrite !countIf_cons. lia.
  - rewrite !countIf_cons. specialize (IH i pc pc' Hi). lia.
Qed.

Lemma countIf_replicate_Start (p : PC -> bool) (n : nat) :
  p Start = false -> countIf p (replicate n Start) = 0%nat.
Proof.
  intros Hp. induction n as [| n IH]; [reflexivity |].
  simpl. rewrite countIf_cons, IH, Hp. reflexivity.
Qed.




(** The two mutexes do what mutexes do: the number of callers inside a
    critical section is one when the mutex is held and zero when it is
    free.  They guard the stores, not the token request. *)
Lemma step_sections (s s' : Shared) :
  step s s' ->
  countIf inAuthSection (callers s) = held (authMu s) /\
  countIf inClientSection (callers s) = held (clientMu s) ->
  countIf inAuthSection (callers s') = held (authMu s') /\
  countIf inClientSection (callers s') = held (clientMu s').
Proof.
  intros Hstep [Hauth Hclient].
  destruct Hstep as [i s Hi | i r s Hi | i err s Hi | i tok s Hi Hmu
                    | i tok s Hi | i tok s Hi Hmu | i tok s Hi];
    simpl;
    match goal with
    | |- countIf _ (<[_ := ?pc']> _) = _ /\ _ =>
        pose proof (countIf_insert inAuthSection (callers s) i _ pc' Hi) as Ha;
        pose proof (countIf_insert inClientSection (callers s) i _ pc' Hi) as Hc
    end;
    simpl in Ha, Hc; try rewrite Hmu in *; unfold held in *;
    destruct (authMu s); destruct (clientMu s); simpl in *;
    try discriminate; split; lia.
Qed.

Lemma reachable_sections (n : nat) (s : Shared) :
  rtc step (init n) s ->
  countIf inAuthSection (callers s) = held (authMu s) /\
  countIf inClientSection (callers s) = held (clientMu s).
Proof.
  intros Hrun. revert s Hrun. apply rtc_ind_r.
  - simpl. rewrite !countIf_replicate_Start by reflexivity. auto.
  - intros s s' _ Hstep Hinv. exact (step_sections _ _ Hstep Hinv).
Qed.







End ConcurrentRefresh.

(** * Further properties *)

(** ** Classification of errors *)

Section Classification.
Import GoTime Types GoFloat Http Examples.


(** The classifier of the [types] package accepts whatever the retry loop
    of the [http] package retries, and every error it takes for a rate
    limit. *)
Theorem IsRetryableError_covers (err : error) :
  (isRetryable err = true -> IsRetryableError err = true) /\
  (IsRateLimitError err = true -> IsRetryableError err = true).
Proof.
  split.
  - destruct err; simpl; try discriminate; auto.
  - destruct err as [e | | | | | |]; simpl; try discriminate; auto.
    intros Hlimit. apply IsRetryable_cases.
    apply orb_true_iff in Hlimit as [Hcode | Hstatus].
    + left. apply String.eqb_eq. exact Hcode.
    + right. right. left. apply Z.eqb_eq. exact Hstatus.
Qed.

End Classification.

(** ** What one call does to the log *)

Section ExecutorBounds.
Import GoTime Types GoFloat Http Salesforce Examples.

Lemma sleeps_app (l1 l2 : list Event) :
  sleeps (l1 ++ l2) = (sleeps l1 ++ sleeps l2)%list.
Proof. unfold sleeps. apply flat_map_app. Qed.

Lemma RefreshToken_effects (env : Env) (st : State) :
  log (RefreshToken env st).2 = (log st ++ [EvRefresh])%list /\
  clock (RefreshToken env st).2 = clock st /\
  samples (RefreshToken env st).2 = samples st /\
  mirrors (RefreshToken env st).2 \/
  log (RefreshToken env st).2 = (log st ++ [EvRefresh])%list /\
  clock (RefreshToken env st).2 = clock st /\
  samples (RefreshToken env st).2 = samples st /\
  token (RefreshToken env st).2 = token st /\
  accessToken (RefreshToken env st).2 = accessToken st /\
  baseURL (RefreshToken env st).2 = baseURL st.
Proof.
  unfold RefreshToken. simpl.
  destruct (authRefresh env (refreshCalls st)) as [tok | err]; simpl.
  - left. do 3 (split; [reflexivity |]). unfold mirrors. simpl.
    split; [reflexivity |].
    intros Hne. apply String.eqb_neq in Hne. rewrite Hne. reflexivity.
  - right. repeat split.
Qed.

(** One call of [doRequest] sends one request more than it makes
    refreshes, at most; it never sleeps, and it keeps the HTTP client's own
    credential in step with the token of the provider. *)
Lemma doRequest_effects `{JSON} (env : Env) (c : Client) (method path : string)
    (script : Script) :
  forall (body : Body) (st : State) (r : Result string) (script' : Script)
         (body' : Body) (st' : State),
    doRequest env c method path script body st = Some (r, script', body', st') ->
    (sends (log st') + refreshes (log st)
     <= sends (log st) + refreshes (log st') + 1)%nat /\
    (refreshes (log st) <= refreshes (log st'))%nat /\
    sleeps (log st') = sleeps (log st) /\
    clock st' = clock st /\
    samples st' = samples st /\
    (hasTokenProvider c = false ->
     refreshes (log st') = refreshes (log st)) /\
    (mirrors st -> mirrors st').
Proof.
  induction script as [| serve script IH];
    intros body st r script' body' st' Hdo; cbn [doRequest] in Hdo;
    destruct (credentials c st) as [base tok];
    destruct (bodyReader body) as [payload | err];
    try (injection Hdo as <- <- <- <-; repeat split; auto; lia);
    destruct (newRequest env method (base +:+ path)) as [err |];
    try (injection Hdo as <- <- <- <-; repeat split; auto; lia);
    try discriminate Hdo.
  set (req := buildRequest method (base +:+ path) tok payload) in *.
  assert (Hsent :
    (sends (log (record (EvSend req) st)) + refreshes (log st)
     <= sends (log st) + refreshes (log (record (EvSend req) st)) + 1)%nat /\
    (refreshes (log st) <= refreshes (log (record (EvSend req) st)))%nat /\
    sleeps (log (record (EvSend req) st)) = sleeps (log st) /\
    clock (record (EvSend req) st) = clock st /\
    samples (record (EvSend req) st) = samples st /\
    (hasTokenProvider c = false ->
     refreshes (log (record (EvSend req) st)) = refreshes (log st)) /\
    (mirrors st -> mirrors (record (EvSend req) st))).
  { unfold sends, refreshes. simpl. rewrite !count_app, sleeps_app. simpl.
    rewrite app_nil_r. repeat split; auto; lia. }
  destruct (serve req) as [err | err | resp];
    try (injection Hdo as <- <- <- <-; exact Hsent).
  destruct ((Status resp <? 200) || (Status resp >=? 300));
    [| injection Hdo as <- <- <- <-; exact Hsent].
  destruct (Status resp =? StatusTooManyRequests);
    [injection Hdo as <- <- <- <-; exact Hsent |].
  destruct (Status resp =? StatusUnauthorized); simpl in Hdo;
    [| injection Hdo as <- <- <- <-; exact Hsent].
  destruct (hasTokenProvider c) eqn:Hprov; simpl in Hdo;
    [| injection Hdo as <- <- <- <-; exact Hsent].
  destruct Hsent as (Hs & Hr & Hsl & Hcl & Hsa & _ & Hmi).
  set (st1 := record (EvSend req) st) in *.
  assert (Hrefresh :
    log (RefreshToken env st1).2 = (log st1 ++ [EvRefresh])%list /\
    clock (RefreshToken env st1).2 = clock st1 /\
    samples (RefreshToken env st1).2 = samples st1 /\
    (mirrors st1 -> mirrors (RefreshToken env st1).2)).
  { destruct (RefreshToken_effects env st1)
      as [(Hl & Hc & Hsm & Hm) | (Hl & Hc & Hsm & Ht & Ha & Hb)];
      repeat split; auto.
    unfold mirrors. rewrite Ht, Ha, Hb. auto. }
  destruct Hrefresh as (Hl2 & Hc2 & Hsm2 & Hm2).
  destruct (RefreshToken env st1) as [[err |] st2] eqn:Href; simpl in *.
  - injection Hdo as <- <- <- <-. rewrite Hl2.
    unfold sends, refreshes in *. rewrite !count_app, sleeps_app. simpl.
    rewrite app_nil_r. repeat split; auto; try lia; try congruence.
  - apply IH in Hdo. destruct Hdo as (Hs' & Hr' & Hsl' & Hcl' & Hsa' & _ & Hmi').
    rewrite Hl2 in *. unfold sends, refreshes in *.
    rewrite !count_app, ?sleeps_app in *. simpl in *.
    rewrite ?app_nil_r in *.
    repeat split; auto; try lia; try congruence.
Qed.

End ExecutorBounds.

Section RequestBounds.
Import GoTime Types GoFloat Http Salesforce Examples.

Lemma sleep_effects (env : Env) (wait : Duration) (st : State) :
  log (sleep env wait st).2 = (log st ++ [EvSleep wait])%list /\
  token (sleep env wait st).2 = token st /\
  accessToken (sleep env wait st).2 = accessToken st /\
  baseURL (sleep env wait st).2 = baseURL st.
Proof.
  unfold sleep. destruct (ctxDoneAt env) as [t |]; simpl;
    repeat match goal with
           | |- context [if ?b then _ else _] => destruct b
           end; simpl; auto.
Qed.

Lemma attempts_effects `{JSON} (env : Env) (c : Client) (method path : string)
    (n : nat) :
  forall (attempt : Z) (lastErr : option error) (script : Script)
         (body : Body) (st : State) (r : Result string) (script' : Script)
         (body' : Body) (st' : State),
    n = 0%nat \/ attempt + Z.of_nat n = maxRetries c + 1 ->
    attempts env c method path n attempt lastErr script body st
    = Some (r, script', body', st') ->
    (sends (log st') + refreshes (log st)
     <= sends (log st) + refreshes (log st') + n)%nat /\
    (refreshes (log st) <= refreshes (log st'))%nat /\
    (length (sleeps (log st')) <= length (sleeps (log st)) + pred n)%nat /\
    (hasTokenProvider c = false ->
     refreshes (log st') = refreshes (log st)) /\
    (mirrors st -> mirrors st').
Proof.
  induction n as [| n IH];
    intros attempt lastErr script body st r script' body' st' Hn Hrun;
    cbn [attempts] in Hrun.
  - injection Hrun as <- <- <- <-. repeat split; auto; lia.
  - destruct Hn as [Hn | Hn]; [discriminate Hn |].
    destruct (doRequest env c method path script body st)
      as [[[[[resp | err] script1] body1] st1] |] eqn:Hdo;
      [| | discriminate Hrun];
      apply doRequest_effects in Hdo;
      destruct Hdo as (Hs & Hr & Hsl & _ & _ & Hnp & Hmi).
    + injection Hrun as <- <- <- <-. rewrite Hsl. repeat split; auto; lia.
    + destruct (isRetryable err); simpl in Hrun;
        [| injection Hrun as <- <- <- <-; rewrite Hsl; repeat split; auto; lia].
      destruct (Z.ltb_spec attempt (maxRetries c)) as [Hlt | Hge].
      * set (wait := calculateBackoff (arch env) c attempt
                       (randFloat64 env (samples st1))) in *.
        destruct (sleep_effects env wait (drawSample st1))
          as (Hlog & Htok & Hacc & Hbase).
        destruct (sleep env wait (drawSample st1)) as [[|] st2] eqn:Hsleep;
          simpl in *.
        -- injection Hrun as <- <- <- <-. rewrite Hlog.
           unfold sends, refreshes in *. rewrite !count_app, sleeps_app.
           rewrite length_app, Hsl. simpl.
           repeat split; auto; try lia.
           ++ intros Hp. rewrite (Hnp Hp). lia.
           ++ intros Hm. specialize (Hmi Hm). unfold mirrors in *.
              rewrite Htok, Hacc, Hbase. exact Hmi.
        -- apply IH in Hrun; [| right; lia].
           destruct Hrun as (Hs' & Hr' & Hsl' & Hnp' & Hmi').
           rewrite Hlog in *. unfold sends, refreshes in *.
           rewrite !count_app, ?sleeps_app, ?length_app in *. simpl in *.
           rewrite Hsl in *.
           repeat split; auto; try lia.
           ++ intros Hp. rewrite (Hnp' Hp), (Hnp Hp). lia.
           ++ intros Hm. apply Hmi'. specialize (Hmi Hm). unfold mirrors in *.
              rewrite Htok, Hacc, Hbase. exact Hmi.
      * apply IH in Hrun; [| left; lia].
        destruct Hrun as (Hs' & Hr' & Hsl' & Hnp' & Hmi').
        rewrite Hsl in *.
        repeat split; auto; try lia.
        intros Hp. rewrite (Hnp' Hp), (Hnp Hp). reflexivity.
Qed.

(** One call of [Request] makes at most [maxRetries + 1] attempts: every
    request beyond that number is a replay that follows a refresh, so that
    without a token provider no more than [maxRetries + 1] requests are
    sent; and the call sleeps at most [maxRetries] times. *)
Theorem Request_bounded `{JSON} (env : Env) (c : Client) (method path : string)
    (script script' : Script) (body body' : Body) (st st' : State)
    (r : Result string) :
  Request env c method path script body st = Some (r, script', body', st') ->
  (sends (log st') + refreshes (log st)
   <= sends (log st) + refreshes (log st') + Z.to_nat (maxRetries c + 1))%nat /\
  (length (sleeps (log st'))
   <= length (sleeps (log st)) + Z.to_nat (maxRetries c))%nat /\
  (hasTokenProvider c = false ->
   (sends (log st') <= sends (log st) + Z.to_nat (maxRetries c + 1))%nat).
Proof.
  unfold Request. intros Hrun.
  apply attempts_effects in Hrun; [| lia].
  destruct Hrun as (Hs & Hr & Hsl & Hnp & _).
  split; [exact Hs |]. split; [lia |].
  intros Hp. rewrite (Hnp Hp) in Hs. lia.
Qed.

#[local] Existing Instance exampleJSON.

Lemma Request_bounded_witness :
  exists st',
    Request env0 client0 "GET" limitsPath
      [reply 429 "" "slow down"; reply 401 "" "expired"; reply 200 "" "ok"]
      BodyNil st0
    = Some (Ok "ok", [], BodyNil, st') /\
    ((sends (log st') + refreshes (log st0)
      <= sends (log st0) + refreshes (log st') + Z.to_nat (maxRetries client0 + 1))%nat /\
     (length (sleeps (log st'))
      <= length (sleeps (log st0)) + Z.to_nat (maxRetries client0))%nat /\
     (hasTokenProvider client0 = false ->
      (sends (log st') <= sends (log st0) + Z.to_nat (maxRetries client0 + 1))%nat)).
Proof.
  eexists. split; [vm_compute; reflexivity |].
  apply (Request_bounded env0 client0 "GET" limitsPath
           [reply 429 "" "slow down"; reply 401 "" "expired"; reply 200 "" "ok"]
           [] BodyNil BodyNil st0 _ (Ok "ok")).
  vm_compute. reflexivity.
Defined.



End RequestBounds.

(** ** The ends of the retry loop *)

Section RetryEnds.
Import GoTime Types GoFloat Http Salesforce Examples.



#[local] Existing Instance exampleJSON.


(** Errors that arise on the client's side are final: a body that cannot
    be marshalled and a request that cannot be built end [Request] before
    anything is sent, and a failure of the transport ends it after the one
    request, without a retry, whatever error the transport reports. *)
Theorem Request_local_errors_final `{JSON} (env : Env) (c : Client)
    (method path : string) (script : Script) (st : State) :
  0 <= maxRetries c ->
  (forall err,
     Request env c method path script (BodyValue (Err err)) st
     = Some (Err (ErrWrap "failed to marshal body" err), script,
             BodyValue (Err err), st)) /\
  (forall body payload err,
     bodyReader body = Ok payload ->
     newRequest env method ((credentials c st).1 +:+ path) = Some err ->
     Request env c method path script body st
     = Some (Err (ErrWrap "failed to create request" err), script, body, st)) /\
  (forall body payload serve err,
     bodyReader body = Ok payload ->
     (forall m u, newRequest env m u = None) ->
     serve (requestFor c method path payload st) = DoError err ->
     Request env c method path (serve :: script) body st
     = Some (Err (ErrWrap "request failed" err), script, drain body,
             record (EvSend (requestFor c method path payload st)) st)).
Proof.
  intros Hretries. repeat split.
  - intros err. apply Request_fatal; [exact Hretries | | reflexivity].
    destruct script; cbn [doRequest]; destruct (credentials c st);
      reflexivity.
  - intros body payload err Hbody Hnew.
    apply Request_fatal; [exact Hretries | | reflexivity].
    destruct script; cbn [doRequest]; destruct (credentials c st) as [base tok];
      simpl in Hnew; rewrite Hbody, Hnew; reflexivity.
  - intros body payload serve err Hbody Hnew Hserve.
    apply Request_fatal; [exact Hretries | | reflexivity].
    rewrite (doRequest_send _ _ _ _ _ _ _ payload) by assumption.
    cbv zeta. rewrite Hserve. reflexivity.
Qed.

Lemma Request_local_errors_final_witness :
  Request env0 client0 "POST" limitsPath [reply 200 "" "ok"]
    (BodyValue (Err (ErrOther "json: unsupported type"))) st0
  = Some (Err (ErrWrap "failed to marshal body"
                 (ErrOther "json: unsupported type")),
          [reply 200 "" "ok"],
          BodyValue (Err (ErrOther "json: unsupported type")), st0).
Proof.
  apply (Request_local_errors_final env0 client0 "POST" limitsPath
           [reply 200 "" "ok"] st0).
  simpl. lia.
Defined.

(** A reader body is spent by the first attempt: the replay after a 401
    carries the new token but an empty body, where the first request
    carried the data. *)
Theorem doRequest_reader_replayed_empty `{JSON} (env : Env) (c : Client)
    (method path : string) (r401 r2xx : Response) (script : Script)
    (data : string) (st : State) (tok : Token) :
  hasTokenProvider c = true ->
  (forall m u, newRequest env m u = None) ->
  Status r401 = StatusUnauthorized ->
  200 <= Status r2xx < 300 ->
  authRefresh env (refreshCalls st) = Ok tok ->
  exists st' url,
    doRequest env c method path
      ((fun _ => Reply r401) :: (fun _ => Reply r2xx) :: script)
      (BodyReader data) st
    = Some (Ok (RespBody r2xx), script, BodyReader "", st') /\
    log st' =
      (log st ++
       [EvSend (requestFor c method path (Some data) st);
        EvRefresh;
        EvSend (buildRequest method url (AccessToken tok) (Some ""))])%list.
Proof.
  intros Hprov Hnew H401 H2xx Href.
  destruct (doRequest_replay_request env c method path r401 r2xx script
              (BodyReader data) (Some data) (Some "") st tok)
    as (st' & Hrun & Hlog); try assumption; try reflexivity.
  exists st'. eexists. split; [exact Hrun | exact Hlog].
Qed.

Lemma doRequest_reader_replayed_empty_witness :
  exists st' url,
    doRequest env0 client0 "PUT" "/services/data/v59.0/jobs/ingest/750xx/batches"
      [reply 401 "" "expired"; reply 201 "" ""]
      (BodyReader "Name,Acme") st0
    = Some (Ok "", [], BodyReader "", st') /\
    log st' =
      [EvSend (requestFor client0 "PUT"
                 "/services/data/v59.0/jobs/ingest/750xx/batches"
                 (Some "Name,Acme") st0);
       EvRefresh;
       EvSend (buildRequest "PUT" url (AccessToken (refreshed 0)) (Some ""))].
Proof.
  apply (doRequest_reader_replayed_empty env0 client0 "PUT"
           "/services/data/v59.0/jobs/ingest/750xx/batches"
           {| Status := 401; RetryAfterHeader := ""; RespBody := "expired" |}
           {| Status := 201; RetryAfterHeader := ""; RespBody := "" |}
           [] "Name,Acme" st0 (refreshed 0)); try reflexivity.
  simpl. lia.
Defined.



End RetryEnds.

(** ** The CSV writer and reader, end to end *)

Section CsvRoundTrip.
Import Types Csv CsvText.

Lemma append_cons (x : ascii) (a b : string) :
  String x a +:+ b = String x (a +:+ b).
Proof. reflexivity. Qed.

Lemma append_nil_l (a : string) : "" +:+ a = a.
Proof. reflexivity. Qed.

Lemma append_assoc (a b c : string) : (a +:+ b) +:+ c = a +:+ (b +:+ c).
Proof.
  induction a as [| x a IH]; [reflexivity |].
  rewrite !append_cons. f_equal. exact IH.
Qed.

Lemma append_nil_r (a : string) : a +:+ "" = a.
Proof.
  induction a as [| x a IH]; [reflexivity |].
  rewrite append_cons. f_equal. exact IH.
Qed.

Lemma length_append (a b : string) :
  String.length (a +:+ b) = (String.length a + String.length b)%nat.
Proof.
  induction a as [| x a IH]; [reflexivity |].
  rewrite append_cons. cbn [String.length Nat.add]. rewrite IH. reflexivity.
Qed.

Lemma snoc_append (cur : string) (c : ascii) (s : string) :
  snoc cur c +:+ s = cur +:+ String c s.
Proof. unfold snoc. rewrite append_assoc. reflexivity. Qed.

Lemma contains_append (p : ascii -> bool) (a b : string) :
  contains p (a +:+ b) = contains p a || contains p b.
Proof.
  induction a as [| x a IH]; simpl; [reflexivity |].
  rewrite IH, orb_assoc. reflexivity.
Qed.

(** Bytes that are not special are taken into the current field. *)
Lemma scan_unquoted (f : string) :
  forall (cur : string) (fields : list string) (rest : string),
    contains special f = false ->
    scan Unquoted (f +:+ rest) cur fields = scan Unquoted rest (cur +:+ f) fields.
Proof.
  induction f as [| c f IH]; intros cur fields rest Hplain.
  - simpl. rewrite append_nil_r. reflexivity.
  - simpl in Hplain. apply orb_false_iff in Hplain as [Hc Hf].
    unfold special in Hc.
    apply orb_false_iff in Hc as [Hc Hcomma].
    apply orb_false_iff in Hc as [Hc Hquote].
    apply orb_false_iff in Hc as [Hlf Hcr].
    rewrite append_cons. cbn [scan]. rewrite Hcomma, Hlf, Hquote.
    rewrite IH by exact Hf. rewrite snoc_append. reflexivity.
Qed.

Lemma scan_plain_field (f : string) (fields : list string) (rest : string) :
  f <> "" ->
  contains special f = false ->
  scan FieldStart (f +:+ rest) "" fields = scan Unquoted rest f fields.
Proof.
  intros Hne Hplain. destruct f as [| c f]; [contradiction |].
  simpl in Hplain. apply orb_false_iff in Hplain as [Hc Hf].
  unfold special in Hc.
  apply orb_false_iff in Hc as [Hc Hcomma].
  apply orb_false_iff in Hc as [Hc Hquote].
  apply orb_false_iff in Hc as [Hlf Hcr].
  rewrite append_cons. cbn [scan]. rewrite Hquote, Hcomma, Hlf.
  rewrite scan_unquoted by exact Hf. reflexivity.
Qed.

(** The inside of a quoted field is read back as the field. *)
Lemma scan_quoted (f : string) :
  forall (cur : string) (fields : list string) (rest : string),
    scan Quoted (escape f +:+ String quote rest) cur fields
    = scan QuoteSeen rest (cur +:+ f) fields.
Proof.
  induction f as [| c f IH]; intros cur fields rest.
  - cbn [escape]. rewrite append_nil_l. cbn [scan].
    rewrite Ascii.eqb_refl, append_nil_r. reflexivity.
  - cbn [escape]. destruct (Ascii.eqb c quote) eqn:Hq.
    + apply Ascii.eqb_eq in Hq. subst c.
      rewrite !append_cons. cbn [scan]. rewrite !Ascii.eqb_refl.
      rewrite IH, snoc_append.
      reflexivity.
    + rewrite append_cons. cbn [scan]. rewrite Hq. rewrite IH, snoc_append.
      reflexivity.
Qed.

Lemma fieldNeedsQuotes_false (f : string) :
  fieldNeedsQuotes f = false -> contains special f = false.
Proof.
  unfold fieldNeedsQuotes.
  destruct (String.eqb_spec f "") as [-> | Hne]; [reflexivity |].
  destruct (String.eqb f "\."); [discriminate |].
  change (fun c : ascii => Ascii.eqb c LF || Ascii.eqb c CR
                           || Ascii.eqb c quote || Ascii.eqb c comma)
    with special.
  destruct (contains special f); [discriminate | reflexivity].
Qed.

Lemma comma_not_quote : Ascii.eqb comma quote = false.
Proof. reflexivity. Qed.

(** A written field that is followed by a comma is read back and the
    reader goes on with the next field; followed by a newline it ends the
    record. *)
Lemma scan_written_field (f : string) (fields : list string) (rest : string) :
  scan FieldStart (writeField f +:+ String comma rest) "" fields
  = scan FieldStart rest "" (fields ++ [f]) /\
  scan FieldStart (writeField f +:+ String LF rest) "" fields
  = (ReadRecord (fields ++ [f]), rest).
Proof.
  unfold writeField. destruct (fieldNeedsQuotes f) eqn:Hq.
  - assert (Hshape : forall d,
              (String quote (escape f) +:+ String quote "") +:+ String d rest
              = String quote (escape f +:+ String quote (String d rest))).
    { intros d. simpl. rewrite append_assoc. reflexivity. }
    rewrite !Hshape. cbn [scan]. rewrite !Ascii.eqb_refl.
    rewrite !scan_quoted. simpl. split; reflexivity.
  - pose proof (fieldNeedsQuotes_false f Hq) as Hplain.
    destruct (String.eqb_spec f "") as [-> | Hne].
    + simpl. split; reflexivity.
    + rewrite !scan_plain_field by assumption. simpl. split; reflexivity.
Qed.

(** A written record is read back as it was written. *)
Lemma scan_written_record (record : list string) :
  forall (fields : list string) (rest : string),
    record <> [] ->
    scan FieldStart (writeFields record +:+ String LF rest) "" fields
    = (ReadRecord (fields ++ record), rest).
Proof.
  induction record as [| f record IH]; intros fields rest Hne; [contradiction |].
  destruct record as [| g record].
  - cbn [writeFields]. apply scan_written_field.
  - cbn [writeFields] in *. rewrite append_assoc, append_cons.
    rewrite (proj1 (scan_written_field f fields _)).
    rewrite IH by discriminate. rewrite <- app_assoc. reflexivity.
Qed.

Lemma writeField_head (f : string) :
  f <> "" ->
  contains isCR f = false ->
  exists c s, writeField f = String c s /\ Ascii.eqb c LF = false.
Proof.
  intros Hne Hcr. unfold writeField. destruct (fieldNeedsQuotes f) eqn:Hq.
  - simpl. eexists. eexists. split; reflexivity.
  - pose proof (fieldNeedsQuotes_false f Hq) as Hplain.
    destruct f as [| c f]; [contradiction |].
    simpl in Hplain. apply orb_false_iff in Hplain as [Hc _].
    unfold special in Hc.
    apply orb_false_iff in Hc as [Hc _].
    apply orb_false_iff in Hc as [Hc _].
    apply orb_false_iff in Hc as [Hlf _].
    eexists. eexists. split; [reflexivity | exact Hlf].
Qed.

(** The text of a writable record does not begin with an empty line. *)
Lemma written_head (record : list string) (rest : string) :
  writable record ->
  exists c s, writeFields record +:+ String LF rest = String c s /\
              Ascii.eqb c LF = false.
Proof.
  intros (Hne & Hblank & Hcr).
  destruct record as [| f record]; [contradiction |].
  apply Forall_cons in Hcr as [Hf Hcr].
  destruct (String.eqb_spec f "") as [-> | Hfne].
  - destruct record as [| g record]; [contradiction |].
    cbn [writeFields]. unfold writeField at 1. simpl.
    eexists. eexists. split; reflexivity.
  - destruct (writeField_head f Hfne Hf) as (c & s & Hw & Hc).
    destruct record as [| g record]; cbn [writeFields]; rewrite Hw; simpl;
      eexists; eexists; split; try reflexivity; exact Hc.
Qed.

Lemma readRecord_written (record : list string) (rest : string) :
  writable record ->
  readRecord (writeFields record +:+ String LF rest) = (ReadRecord record, rest).
Proof.
  intros Hw. unfold readRecord.
  destruct (written_head record rest Hw) as (c & s & Heq & Hc).
  rewrite Heq. cbn [skipEmptyLines]. rewrite Hc. rewrite <- Heq.
  destruct Hw as (Hne & _ & _).
  rewrite (scan_written_record record [] rest Hne). reflexivity.
Qed.

Lemma normalize_noCR (s : string) :
  contains isCR s = false -> normalize s = s.
Proof.
  induction s as [| c s IH]; intros Hcr; [reflexivity |].
  simpl in Hcr. apply orb_false_iff in Hcr as [Hc Hs].
  unfold isCR in Hc. cbn [normalize]. rewrite Hc, IH by exact Hs. reflexivity.
Qed.

Lemma escape_noCR (f : string) :
  contains isCR f = false -> contains isCR (escape f) = false.
Proof.
  induction f as [| c f IH]; intros Hcr; [reflexivity |].
  simpl in Hcr. apply orb_false_iff in Hcr as [Hc Hf].
  cbn [escape]. destruct (Ascii.eqb c quote) eqn:Hq; simpl.
  - rewrite IH by exact Hf. reflexivity.
  - rewrite Hc, IH by exact Hf. reflexivity.
Qed.

Lemma writeFields_noCR (record : list string) :
  Forall (fun field => contains isCR field = false) record ->
  contains isCR (writeFields record) = false.
Proof.
  assert (Hfield : forall f, contains isCR f = false ->
                             contains isCR (writeField f) = false).
  { intros f Hf. unfold writeField. destruct (fieldNeedsQuotes f); [| exact Hf].
    simpl. rewrite contains_append, escape_noCR by exact Hf. reflexivity. }
  induction 1 as [| f record Hf _ IH]; [reflexivity |].
  destruct record as [| g record]; cbn [writeFields]; [apply Hfield; exact Hf |].
  rewrite contains_append, Hfield by exact Hf. simpl. exact IH.
Qed.

Lemma encode_noCR (records : list (list string)) :
  Forall writable records -> contains isCR (encode records) = false.
Proof.
  induction 1 as [| record records (_ & _ & Hcr) _ IH]; [reflexivity |].
  cbn [encode]. rewrite contains_append, writeFields_noCR by exact Hcr.
  simpl. exact IH.
Qed.

(** Round trip of one record: what [Writer.Write] writes for a writable
    record, a new reader reads back as that record, and then reports the
    end of the input. *)
Lemma Read_Write_round_trip (record : list string) :
  writable record ->
  exists reader,
    Read (NewReader (Write record "")) = (ReadRecord record, reader) /\
    FieldsPerRecord reader = fieldCount record /\
    (Read reader).1 = ReadEOF.
Proof.
  intros Hw. unfold Write, NewReader, Read. cbn [unread FieldsPerRecord].
  rewrite append_nil_l.
  assert (Hcr : contains isCR (writeFields record +:+ String LF "") = false).
  { destruct Hw as (_ & _ & Hcr).
    rewrite contains_append, writeFields_noCR by exact Hcr. reflexivity. }
  rewrite normalize_noCR by exact Hcr.
  rewrite (readRecord_written record "" Hw). simpl.
  eexists. split; [reflexivity |]. split; reflexivity.
Qed.

End CsvRoundTrip.

(** ** What [UploadCSV] uploads, [parseCSV] reads back *)

Section UploadRoundTrip.
Import Types Csv CsvText Bulk BulkText.

(** The buffer after a sequence of [Writer.Write] calls. *)
Lemma fold_left_Write {A : Type} (row : A -> list string) (items : list A) :
  forall buf : string,
    fold_left (fun buf item => Write (row item) buf) items buf
    = buf +:+ encode (map row items).
Proof.
  induction items as [| item items IH]; intros buf.
  - cbn [fold_left map encode]. rewrite append_nil_r. reflexivity.
  - cbn [fold_left map encode]. rewrite IH. unfold Write.
    rewrite !append_assoc, append_cons, append_nil_l. reflexivity.
Qed.

Lemma csvBody_encode (columns : list string) (records : list (gmap string Value)) :
  csvBody columns records = encode (columns :: map (csvRow columns) records).
Proof.
  unfold csvBody. rewrite fold_left_Write. unfold Write.
  rewrite append_nil_l, append_assoc, append_cons, append_nil_l.
  reflexivity.
Qed.

(** A reader that expects [n] fields reads a written record of [n]
    fields. *)
Lemma Read_written (record : list string) (rest : string) (n : Z) :
  writable record ->
  (n = 0 \/ n = fieldCount record) ->
  Read {| unread := writeFields record +:+ String LF rest; FieldsPerRecord := n |}
  = (ReadRecord record, {| unread := rest; FieldsPerRecord := fieldCount record |}).
Proof.
  intros Hw Hn. unfold Read. cbn [unread FieldsPerRecord].
  rewrite (readRecord_written record rest Hw).
  assert (Hpos : 0 < fieldCount record).
  { destruct Hw as (Hne & _). unfold fieldCount.
    destruct record; [contradiction | cbn [length]; lia]. }
  destruct Hn as [-> | ->].
  - reflexivity.
  - replace (fieldCount record >? 0) with true
      by (symmetry; rewrite Z.gtb_ltb; apply Z.ltb_lt; exact Hpos).
    rewrite Z.eqb_refl. reflexivity.
Qed.

(** The rows of a written text are read one by one, and then the end of
    the input. *)
Lemma readRows_written (headers : list string) (rows : list (list string)) :
  forall (fuel : nat) (n : Z) (records : list (gmap string Value)),
    Forall writable rows ->
    Forall (fun row => fieldCount row = n) rows ->
    (String.length (encode rows) < fuel)%nat ->
    readRows fuel {| unread := encode rows; FieldsPerRecord := n |} headers records
    = Some (Ok (records ++ map (fun row => fillRecord headers 0 row ∅) rows)%list).
Proof.
  induction rows as [| row rows IH]; intros fuel n records Hw Hn Hfuel.
  - destruct fuel as [| fuel]; [cbn [encode String.length] in Hfuel; lia |].
    cbn [readRows encode map]. rewrite app_nil_r. reflexivity.
  - destruct fuel as [| fuel]; [lia |].
    apply Forall_cons in Hw as [Hrow Hw]. apply Forall_cons in Hn as [Hcount Hn].
    cbn [readRows encode]. rewrite (Read_written row (encode rows) n Hrow)
      by (right; symmetry; exact Hcount).
    rewrite Hcount. rewrite IH; try assumption.
    + cbn [map]. rewrite <- app_assoc. reflexivity.
    + cbn [encode] in Hfuel. rewrite length_append in Hfuel.
      cbn [String.length] in Hfuel. lia.
Qed.

(** The text of writable records is parsed into the records of its rows
    under the names of its first row. *)
Lemma parseCSV_encode (headers : list string) (rows : list (list string)) :
  Forall writable (headers :: rows) ->
  Forall (fun row => length row = length headers) rows ->
  parseCSV (encode (headers :: rows))
  = Some (Ok (map (fun row => fillRecord headers 0 row ∅) rows)).
Proof.
  intros Hw Hn. unfold parseCSV, NewReader.
  rewrite normalize_noCR by (apply encode_noCR; exact Hw).
  apply Forall_cons in Hw as [Hhead Hw].
  cbn [encode]. rewrite (Read_written headers (encode rows) 0 Hhead)
    by (left; reflexivity).
  rewrite readRows_written; try assumption.
  - reflexivity.
  - eapply Forall_impl; [exact Hn |]. intros row Hrow. cbn beta in Hrow.
    unfold fieldCount. rewrite Hrow. reflexivity.
  - rewrite length_append. cbn [String.length]. lia.
Qed.

(** The record [parseCSV] builds from the row [UploadCSV] wrote for
    [record]: the text of the value under every column, nothing else. *)
Lemma fillRecord_csvRow (record : gmap string Value) (columns : list string) :
  forall (before : list string) (m : gmap string Value) (col : string),
    fillRecord columns (length before) (before ++ map (cell record) columns)%list m
      !! col
    = if decide (col ∈ columns) then Some (VString (cell record col))
      else m !! col.
Proof.
  induction columns as [| h columns IH]; intros before m col.
  - cbn [fillRecord]. destruct (decide (col ∈ [])) as [Hin |]; [| reflexivity].
    inversion Hin.
  - cbn [fillRecord map].
    rewrite (list_lookup_middle before (map (cell record) columns)
               (cell record h) (length before) eq_refl).
    replace (before ++ cell record h :: map (cell record) columns)%list
      with ((before ++ [cell record h]) ++ map (cell record) columns)%list
      by (rewrite <- app_assoc; reflexivity).
    replace (S (length before)) with (length (before ++ [cell record h]))
      by (rewrite length_app; cbn [length]; lia).
    rewrite IH.
    destruct (decide (col ∈ columns)) as [Hin | Hnin].
    + rewrite decide_True by (right; exact Hin). reflexivity.
    + destruct (decide (col = h)) as [-> | Hne].
      * rewrite decide_True by left. rewrite lookup_insert_eq. reflexivity.
      * rewrite decide_False by (intros Hin; inversion Hin; subst; tauto).
        rewrite lookup_insert_ne by congruence. reflexivity.
Qed.

Context {C : Type} `{HTTPClient C}.
Variable rangeKeys : gmap string Value -> list string.

(** Round trip of the bulk data.  Let the columns be given, and let the
    header row and the row of every record be writable.  Then the buffer
    [UploadCSV] hands to [UploadData] is parsed by [parseCSV] into one
    record for each record uploaded, in the same order, which holds under
    every column the text of the uploaded value (the empty string for a
    column the record lacks) and nothing under any other key. *)
Theorem UploadCSV_parseCSV_round_trip (s : Service) (jobID : string)
    (records : list (gmap string Value)) (columns : list string) (c : C) :
  records <> [] ->
  columns <> [] ->
  Forall writable (columns :: map (csvRow columns) records) ->
  exists (body : string) (parsed : list (gmap string Value)),
    UploadCSV rangeKeys s jobID records columns c = UploadData s jobID body c /\
    parseCSV body = Some (Ok parsed) /\
    Forall2 (fun record read =>
               forall col : string,
                 read !! col
                 = if decide (col ∈ columns)
                   then Some (VString (cell record col)) else None)
            records parsed.
Proof.
  intros Hrecords Hcolumns Hw.
  exists (csvBody columns records),
         (map (fun row => fillRecord columns 0 row ∅) (map (csvRow columns) records)).
  split; [| split].
  - unfold UploadCSV, csvBody.
    destruct records as [| first records]; [contradiction |].
    destruct columns as [| col columns]; [contradiction |]. reflexivity.
  - rewrite csvBody_encode. apply parseCSV_encode; [exact Hw |].
    clear. induction records as [| record records IH]; constructor; [| exact IH].
    unfold csvRow. rewrite length_map. reflexivity.
  - clear. induction records as [| record records IH]; cbn [map]; constructor;
      [| exact IH].
    intros col.
    pose proof (fillRecord_csvRow record columns [] ∅ col) as Hfill.
    rewrite lookup_empty in Hfill. exact Hfill.
Qed.

End UploadRoundTrip.

Section UploadRoundTripExample.
Import Types Csv CsvText Bulk BulkText Examples MoreExamples.
#[local] Existing Instance fakeClient.

Lemma UploadCSV_parseCSV_round_trip_witness :
  exists (body : string) (parsed : list (gmap string Value)),
    UploadCSV sortedKeys service59 "750xx0000000001"
      [acme; smithJones] ["Name"; "Employees"]
      (serving "")
    = UploadData service59 "750xx0000000001" body (serving "") /\
    parseCSV body = Some (Ok parsed) /\
    Forall2 (fun record read =>
               forall col : string,
                 read !! col
                 = if decide (col ∈ ["Name"; "Employees"])
                   then Some (VString (cell record col)) else None)
            [acme; smithJones] parsed.
Proof.
  apply (UploadCSV_parseCSV_round_trip sortedKeys service59
           "750xx0000000001" [acme; smithJones]
           ["Name"; "Employees"] (serving "")).
  - discriminate.
  - discriminate.
  - repeat constructor; try discriminate; vm_compute; reflexivity.
Defined.

End UploadRoundTripExample.

(** ** The shape of the records [parseCSV] returns *)

Section ParsedShape.
Import Types Csv Bulk BulkText.







End ParsedShape.

Section ParsedShapeExample.
Import Types Csv Bulk Examples.


End ParsedShapeExample.

(** ** The wait for the completion of a job *)

Section Waiting.
Import GoTime Types Bulk BulkJobs.
Context {C : Type} `{HTTPClient C} `{JobJSON}.
Variable ctxDone : nat -> bool.
Variable ctxErr : ContextError.

Lemma poll_complete (fuel : nat) :
  forall (round : nat) (s : Service) (jobID : string) (c c' : C) (job : JobInfo),
    poll ctxDone ctxErr fuel round s jobID c = (Some (Ok job), c') ->
    IsComplete job = true.
Proof.
  induction fuel as [| fuel IH]; intros round s jobID c c' job Hpoll;
    [discriminate |].
  cbn [poll] in Hpoll. destruct (ctxDone round); [discriminate |].
  destruct (GetJob s jobID c) as [[job1 | err] c1]; [| discriminate].
  destruct (IsComplete job1) eqn:Hdone.
  - inversion Hpoll; subst. exact Hdone.
  - eapply IH; exact Hpoll.
Qed.

(** [WaitForCompletion] never hands out a job that is still open, queued
    or in progress: a job it returns is complete, failed or aborted. *)
Theorem WaitForCompletion_returns_complete (fuel : nat) (s : Service)
    (jobID : string) (pollInterval : Duration) (c c' : C) (job : JobInfo) :
  WaitForCompletion ctxDone ctxErr fuel s jobID pollInterval c
  = (Some (Returned (Ok job)), c') ->
  State job = StateJobComplete \/ State job = StateFailed \/
  State job = StateAborted.
Proof.
  unfold WaitForCompletion. intros Hwait.
  destruct ((if pollInterval =? 0 then 5 * Second else pollInterval) <=? 0);
    [discriminate |].
  destruct (poll ctxDone ctxErr fuel 0 s jobID c) as [[res |] c1] eqn:Hpoll;
    [| discriminate].
  inversion Hwait; subst.
  apply poll_complete in Hpoll. unfold IsComplete in Hpoll.
  apply orb_true_iff in Hpoll as [Hpoll | Hpoll];
    [apply orb_true_iff in Hpoll as [Hpoll | Hpoll] |];
    apply String.eqb_eq in Hpoll; auto.
Qed.

Lemma poll_unfinished (n : nat) :
  forall (fuel round : nat) (s : Service) (jobID : string) (c c' : C),
    unfinished s jobID n c c' ->
    (forall k, (k < n)%nat -> ctxDone (round + k) = false) ->
    poll ctxDone ctxErr (n + fuel) round s jobID c
    = poll ctxDone ctxErr fuel (round + n) s jobID c'.
Proof.
  induction n as [| n IH]; intros fuel round s jobID c c' Hpolls Hctx.
  - inversion Hpolls; subst. rewrite Nat.add_0_r. reflexivity.
  - inversion Hpolls as [| n0 c0 c1 c2 job Hget Hopen Hrest]; subst.
    cbn [Nat.add poll].
    rewrite <- (Nat.add_0_r round) at 1. rewrite Hctx by lia.
    rewrite Hget, Hopen.
    rewrite (IH fuel (S round) s jobID c1 c' Hrest).
    + f_equal. lia.
    + intros k Hk. replace (S round + k)%nat with (round + S k)%nat by lia.
      apply Hctx. lia.
Qed.

(** The wait ends with the first poll whose answer is an error or a
    complete job.  After [n] polls that found the job unfinished, let
    the next [GetJob] return such a result; if the context is not done
    before, [WaitForCompletion] returns that very result, an error of
    the poll included, and makes no further call. *)
Theorem WaitForCompletion_first_decisive_poll (n fuel : nat) (s : Service)
    (jobID : string) (pollInterval : Duration) (c c1 c' : C)
    (res : Result JobInfo) :
  0 <= pollInterval ->
  unfinished s jobID n c c1 ->
  GetJob s jobID c1 = (res, c') ->
  decisive res = true ->
  (forall k, (k <= n)%nat -> ctxDone k = false) ->
  (n < fuel)%nat ->
  WaitForCompletion ctxDone ctxErr fuel s jobID pollInterval c
  = (Some (Returned res), c').
Proof.
  intros Hinterval Hpolls Hget Hres Hctx Hfuel. unfold WaitForCompletion.
  replace ((if pollInterval =? 0 then 5 * Second else pollInterval) <=? 0)
    with false
    by (symmetry; apply Z.leb_gt; destruct (Z.eqb_spec pollInterval 0);
        [reflexivity | lia]).
  replace fuel with (n + S (fuel - S n))%nat by lia.
  rewrite (poll_unfinished n (S (fuel - S n)) 0 s jobID c c1 Hpolls)
    by (intros k Hk; apply Hctx; lia).
  cbn [poll Nat.add]. rewrite Hctx by lia. rewrite Hget.
  destruct res as [job | err]; [| reflexivity].
  cbn [decisive] in Hres. rewrite Hres. reflexivity.
Qed.

(** When the context is done, the wait ends with the error of the
    context, without another poll: the client is left as the last poll
    left it. *)
Theorem WaitForCompletion_context_done (n fuel : nat) (s : Service)
    (jobID : string) (pollInterval : Duration) (c c' : C) :
  0 <= pollInterval ->
  unfinished s jobID n c c' ->
  (forall k, (k < n)%nat -> ctxDone k = false) ->
  ctxDone n = true ->
  (n < fuel)%nat ->
  WaitForCompletion ctxDone ctxErr fuel s jobID pollInterval c
  = (Some (Returned (Err (ErrContext ctxErr))), c').
Proof.
  intros Hinterval Hpolls Hctx Hdone Hfuel. unfold WaitForCompletion.
  replace ((if pollInterval =? 0 then 5 * Second else pollInterval) <=? 0)
    with false
    by (symmetry; apply Z.leb_gt; destruct (Z.eqb_spec pollInterval 0);
        [reflexivity | lia]).
  replace fuel with (n + S (fuel - S n))%nat by lia.
  rewrite (poll_unfinished n (S (fuel - S n)) 0 s jobID c c' Hpolls)
    by (intros k Hk; apply Hctx; lia).
  cbn [poll Nat.add]. rewrite Hdone. reflexivity.
Qed.

End Waiting.

Section WaitingExamples.
Import GoTime Types Bulk BulkJobs Examples MoreExamples.
#[local] Existing Instance scriptedClient.
#[local] Existing Instance exampleJobJSON.

Lemma WaitForCompletion_returns_complete_witness :
  State (jobIn StateJobComplete) = StateJobComplete \/
  State (jobIn StateJobComplete) = StateFailed \/
  State (jobIn StateJobComplete) = StateAborted.
Proof.
  apply (WaitForCompletion_returns_complete (fun _ => false)
           Canceled 5 service59 "750xx0000000001" (2 * Second)
           {| pending := [Ok (jobBody StateInProgress);
                          Ok (jobBody StateJobComplete)];
              received := [] |}
           {| pending := [];
              received := [("GET", jobsPath); ("GET", jobsPath)] |}).
  vm_compute. reflexivity.
Defined.

Lemma WaitForCompletion_first_decisive_poll_witness :
  WaitForCompletion (fun _ => false) Canceled 5 service59
    "750xx0000000001" 0
    {| pending := [Ok (jobBody StateInProgress); Ok (jobBody StateInProgress);
                   Err (ErrOther "connection reset by peer");
                   Ok (jobBody StateJobComplete)];
       received := [] |}
  = (Some (Returned (Err (ErrOther "connection reset by peer"))),
     {| pending := [Ok (jobBody StateJobComplete)];
        received := [("GET", jobsPath); ("GET", jobsPath); ("GET", jobsPath)] |}).
Proof.
  apply (WaitForCompletion_first_decisive_poll (fun _ => false)
           Canceled 2 5 service59 "750xx0000000001" 0 _
           {| pending := [Err (ErrOther "connection reset by peer");
                          Ok (jobBody StateJobComplete)];
              received := [("GET", jobsPath); ("GET", jobsPath)] |}).
  - lia.
  - eapply unfinished_S; [vm_compute; reflexivity | reflexivity |].
    eapply unfinished_S; [vm_compute; reflexivity | reflexivity |].
    apply unfinished_O.
  - vm_compute. reflexivity.
  - reflexivity.
  - intros k _. reflexivity.
  - lia.
Defined.

Lemma WaitForCompletion_context_done_witness :
  WaitForCompletion (fun round => Nat.leb 1 round) Canceled 5
    service59 "750xx0000000001" (2 * Second)
    {| pending := [Ok (jobBody StateInProgress); Ok (jobBody StateJobComplete)];
       received := [] |}
  = (Some (Returned (Err (ErrContext Canceled))),
     {| pending := [Ok (jobBody StateJobComplete)];
        received := [("GET", jobsPath)] |}).
Proof.
  apply (WaitForCompletion_context_done (fun round => Nat.leb 1 round)
           Canceled 1 5 service59 "750xx0000000001" (2 * Second)).
  - vm_compute. discriminate.
  - eapply unfinished_S; [vm_compute; reflexivity | reflexivity |].
    apply unfinished_O.
  - intros k Hk. destruct k; [reflexivity | lia].
  - reflexivity.
  - lia.
Defined.

End WaitingExamples.

(** ** The helpers of the SOAP login *)

Section XmlText.
Import Csv AuthText.

Lemma ReplaceAll_append (a b : string) (old : ascii) (new : string) :
  ReplaceAll (a +:+ b) old new = ReplaceAll a old new +:+ ReplaceAll b old new.
Proof.
  induction a as [| c a IH]; [reflexivity |].
  rewrite append_cons. cbn [ReplaceAll]. rewrite IH.
  destruct (Ascii.eqb c old); [rewrite append_assoc | rewrite append_cons];
    reflexivity.
Qed.

Lemma escapeXML_append (a b : string) :
  escapeXML (a +:+ b) = escapeXML a +:+ escapeXML b.
Proof. unfold escapeXML. rewrite !ReplaceAll_append. reflexivity. Qed.

Lemma escapeXML_byte (c : ascii) : escapeXML (String c "") = entity c.
Proof.
  unfold entity.
  destruct (Ascii.eqb_spec c amp) as [-> | Hamp]; [reflexivity |].
  destruct (Ascii.eqb_spec c lt) as [-> | Hlt]; [reflexivity |].
  destruct (Ascii.eqb_spec c gt) as [-> | Hgt]; [reflexivity |].
  destruct (Ascii.eqb_spec c apos) as [-> | Hapos]; [reflexivity |].
  destruct (Ascii.eqb_spec c quote) as [-> | Hquote]; [reflexivity |].
  apply Ascii.eqb_neq in Hamp, Hlt, Hgt, Hapos, Hquote.
  unfold escapeXML. cbn [ReplaceAll].
  rewrite Hamp. cbn [ReplaceAll]. rewrite Hlt. cbn [ReplaceAll].
  rewrite Hgt. cbn [ReplaceAll]. rewrite Hapos. cbn [ReplaceAll].
  rewrite Hquote. reflexivity.
Qed.

Lemma escapeXML_bytewise (s : string) : escapeXML s = entities s.
Proof.
  induction s as [| c s IH]; [reflexivity |].
  change (String c s) with (String c "" +:+ s).
  rewrite escapeXML_append, escapeXML_byte, IH. reflexivity.
Qed.

(** The five replacements of [escapeXML] do not get in one another's way:
    together they replace every byte by its entity once.  The ampersand
    comes first, so that the ampersand of an entity written by a later
    replacement is not escaped again. *)
Theorem escapeXML_entities (s : string) : escapeXML s = entities s.
Proof.
  induction s as [| c s IH]; [reflexivity |].
  cbn [entities]. rewrite <- IH, <- escapeXML_byte, <- escapeXML_append.
  reflexivity.
Qed.

(** What [escapeXML] returns holds no angle bracket and no quote: put
    between tags or into an attribute, it cannot end them. *)
Theorem escapeXML_no_markup (s : string) :
  contains markup (escapeXML s) = false.
Proof.
  rewrite escapeXML_bytewise.
  induction s as [| c s IH]; [reflexivity |].
  cbn [entities]. rewrite contains_append, IH, orb_false_r.
  unfold entity, markup.
  destruct (Ascii.eqb c amp); [reflexivity |].
  destruct (Ascii.eqb c lt) eqn:Hlt; [reflexivity |].
  destruct (Ascii.eqb c gt) eqn:Hgt; [reflexivity |].
  destruct (Ascii.eqb c apos) eqn:Hapos; [reflexivity |].
  destruct (Ascii.eqb c quote) eqn:Hquote; [reflexivity |].
  cbn [contains]. rewrite Hlt, Hgt, Hapos, Hquote. reflexivity.
Qed.

Lemma HasPrefix_append (p rest : string) : HasPrefix (p +:+ rest) p = true.
Proof.
  induction p as [| c p IH]; [destruct rest; reflexivity |].
  rewrite append_cons. cbn [HasPrefix]. rewrite Ascii.eqb_refl. exact IH.
Qed.

Lemma HasPrefix_long (p : string) :
  forall a rest : string,
    (String.length p <= String.length a)%nat ->
    HasPrefix (a +:+ rest) p = HasPrefix a p.
Proof.
  induction p as [| c p IH]; intros a rest Hlen.
  - destruct a, rest; reflexivity.
  - destruct a as [| x a]; [cbn [String.length] in Hlen; lia |].
    rewrite append_cons. cbn [HasPrefix]. rewrite IH; [reflexivity |].
    cbn [String.length] in Hlen. lia.
Qed.

Lemma HasPrefix_length (p : string) :
  forall a : string,
    HasPrefix a p = true -> (String.length p <= String.length a)%nat.
Proof.
  induction p as [| c p IH]; intros a Hp; [cbn [String.length]; lia |].
  destruct a as [| x a]; [discriminate |].
  cbn [HasPrefix] in Hp. apply andb_true_iff in Hp as [_ Hp].
  apply IH in Hp. cbn [String.length]. lia.
Qed.

Lemma Index_bound (a : string) :
  forall (p : string) (n : nat),
    Index a p = Some n -> (n + String.length p <= String.length a)%nat.
Proof.
  induction a as [| x a IH]; intros p n Hidx.
  - cbn [Index] in Hidx. destruct (HasPrefix "" p) eqn:Hp; [| discriminate].
    inversion Hidx; subst. apply HasPrefix_length in Hp. lia.
  - cbn [Index] in Hidx. destruct (HasPrefix (String x a) p) eqn:Hp.
    + inversion Hidx; subst. apply HasPrefix_length in Hp. lia.
    + destruct (Index a p) as [k |] eqn:Hk; [| discriminate].
      inversion Hidx; subst. apply IH in Hk. cbn [String.length]. lia.
Qed.

(** Text added at the end does not move the first instance. *)
Lemma Index_append (a : string) :
  forall (p rest : string) (n : nat),
    Index a p = Some n -> Index (a +:+ rest) p = Some n.
Proof.
  induction a as [| x a IH]; intros p rest n Hidx.
  - cbn [Index] in Hidx. destruct (HasPrefix "" p) eqn:Hp; [| discriminate].
    inversion Hidx; subst. destruct p; [| discriminate].
    rewrite append_nil_l. destruct rest; reflexivity.
  - pose proof (Index_bound _ _ _ Hidx) as Hbound.
    cbn [Index] in Hidx. rewrite append_cons. cbn [Index].
    rewrite <- append_cons.
    rewrite HasPrefix_long by lia.
    destruct (HasPrefix (String x a) p); [exact Hidx |].
    destruct (Index a p) as [k |] eqn:Hk; [| discriminate].
    rewrite (IH p rest k Hk). exact Hidx.
Qed.

Lemma substring_append (before value rest : string) :
  substring (String.length before) (String.length value)
            (before +:+ value +:+ rest) = value.
Proof.
  induction before as [| b before IH].
  - rewrite append_nil_l. cbn [String.length].
    induction value as [| v value IHv].
    + rewrite append_nil_l. destruct rest; reflexivity.
    + rewrite append_cons. cbn [String.length substring]. rewrite IHv.
      reflexivity.
  - rewrite append_cons. cbn [String.length substring]. exact IH.
Qed.

Lemma from_append (before rest : string) :
  from (String.length before) (before +:+ rest) = rest.
Proof.
  unfold from. rewrite length_append.
  replace (String.length before + String.length rest - String.length before)%nat
    with (String.length rest) by lia.
  rewrite <- (append_nil_r rest) at 2.
  rewrite substring_append. reflexivity.
Qed.

Lemma extractXMLValue_first (before tag value rest : string) :
  Index (before +:+ "<" +:+ tag +:+ ">") ("<" +:+ tag +:+ ">")
  = Some (String.length before) ->
  Index (value +:+ "</" +:+ tag +:+ ">") ("</" +:+ tag +:+ ">")
  = Some (String.length value) ->
  extractXMLValue
    (before +:+ ("<" +:+ tag +:+ ">") +:+ value +:+ ("</" +:+ tag +:+ ">")
     +:+ rest) tag
  = value.
Proof.
  intros Hstart Hend. unfold extractXMLValue.
  apply (Index_append _ _ (value +:+ ("</" +:+ tag +:+ ">") +:+ rest))
    in Hstart.
  apply (Index_append _ _ rest) in Hend.
  rewrite append_assoc in Hstart, Hend.
  rewrite Hstart. rewrite <- length_append.
  rewrite <- (append_assoc before ("<" +:+ tag +:+ ">")).
  rewrite from_append. rewrite Hend.
  apply substring_append.
Qed.

(** [extractXMLValue] finds the text of an element.  Let the element be
    the first with its tag, and let its text not run into an earlier
    instance of the closing tag; then the text between the two tags is
    returned as it stands, entities included. *)
Theorem extractXMLValue_element (before tag value rest : string) :
  Index (before +:+ "<" +:+ tag +:+ ">") ("<" +:+ tag +:+ ">")
  = Some (String.length before) ->
  Index (value +:+ "</" +:+ tag +:+ ">") ("</" +:+ tag +:+ ">")
  = Some (String.length value) ->
  extractXMLValue
    (before +:+ ("<" +:+ tag +:+ ">") +:+ value +:+ ("</" +:+ tag +:+ ">")
     +:+ rest) tag
  = value.
Proof.
  intros Hstart Hend. unfold extractXMLValue.
  pose proof (Index_append _ _ (value +:+ ("</" +:+ tag +:+ ">") +:+ rest) _
                Hstart) as Hopen.
  pose proof (Index_append _ _ rest _ Hend) as Hclose.
  rewrite append_assoc in Hopen, Hclose.
  rewrite Hopen, <- length_append.
  rewrite <- (append_assoc before ("<" +:+ tag +:+ ">")), from_append, Hclose.
  apply substring_append.
Qed.

Lemma extractXMLValue_element_witness :
  extractXMLValue
    ("<result><serverUrl>https://na1.example.com/services/Soap/u/59.0</serverUrl>"
     +:+ ("<" +:+ "sessionId" +:+ ">") +:+ "00Dxx!AQ4&amp;x" +:+
     ("</" +:+ "sessionId" +:+ ">") +:+ "</result>") "sessionId"
  = "00Dxx!AQ4&amp;x".
Proof.
  apply (extractXMLValue_element
           "<result><serverUrl>https://na1.example.com/services/Soap/u/59.0</serverUrl>"
           "sessionId" "00Dxx!AQ4&amp;x" "</result>"); vm_compute; reflexivity.
Defined.

End XmlText.

(** ** The authentication strategies *)

Section RefreshFlow.
Import GoTime Types Http AuthStrategies.
Context `{Decoders}.
Variable newRequest : NewRequest.



(** A refresh that fails, for whatever reason, changes nothing in the
    authenticator: the token it holds and its refresh token stay, and at
    most one request has been sent. *)
Theorem OAuthRefresh_Refresh_failure_keeps_state (issued now : Time)
    (a a' : OAuthRefresh.Authenticator) (script script' : Script) (err : error) :
  OAuthRefresh.Refresh newRequest issued now a script = Some (Err err, a', script') ->
  a' = a /\ (script' = script \/ script' = tail script).
Proof.
  intros Hrefresh. unfold OAuthRefresh.Refresh in Hrefresh.
  destruct (newRequest "POST" (OAuthRefresh.tokenURL a));
    [inversion Hrefresh; subst; auto |].
  destruct script as [| serve script0]; [discriminate |].
  destruct (serve _) as [e | e | resp];
    try (inversion Hrefresh; subst; auto; fail).
  destruct (negb (Status resp =? 200));
    [inversion Hrefresh; subst; auto |].
  destruct (unmarshalTokenResponse (RespBody resp)) as [tokenResp | e];
    [discriminate | inversion Hrefresh; subst; auto].
Qed.

End RefreshFlow.

Section PasswordFlow.
Import GoTime Types Http AuthText AuthStrategies.
Context `{Decoders}.
Variable newRequest : NewRequest.

Lemma authenticateOAuth_failure (issued now : Time) (a a' : Password.Authenticator)
    (script script' : Script) (err : error) :
  Password.authenticateOAuth newRequest issued now a script
  = Some (Err err, a', script') ->
  a' = a /\ (script' = script \/ script' = tail script).
Proof.
  intros Hauth. unfold Password.authenticateOAuth in Hauth.
  destruct (newRequest "POST" _); [inversion Hauth; subst; auto |].
  destruct script as [| serve script0]; [discriminate |].
  destruct (serve _) as [e | e | resp];
    try (inversion Hauth; subst; auto; fail).
  destruct (negb (Status resp =? 200)); [inversion Hauth; subst; auto |].
  destruct (unmarshalPasswordResponse (RespBody resp)) as [tokenResp | e];
    [discriminate | inversion Hauth; subst; auto].
Qed.

(** [Authenticate] fails only when both logins have failed, and the
    error it returns is that of the SOAP login: the answer of the OAuth
    endpoint, for instance that the credentials are wrong, is not
    reported.  The SOAP login is tried after any failure of the OAuth
    flow, on the request that follows. *)
Theorem Password_Authenticate_error_is_SOAP_error (issued now : Time)
    (a a' : Password.Authenticator) (script script' : Script) (err : error) :
  Password.Authenticate newRequest issued now a script
  = Some (Err err, a', script') ->
  exists (oauthErr : error) (script1 : Script),
    Password.authenticateOAuth newRequest issued now a script
    = Some (Err oauthErr, a, script1) /\
    Password.authenticateSOAP newRequest issued now a script1
    = Some (Err err, a', script').
Proof.
  intros Hauth. unfold Password.Authenticate in Hauth.
  destruct (Password.authenticateOAuth newRequest issued now a script)
    as [[[[tok | oauthErr] a1] script1] |] eqn:Hoauth; try discriminate.
  destruct (authenticateOAuth_failure _ _ _ _ _ _ _ Hoauth) as [-> _].
  exists oauthErr, script1. split; [reflexivity | exact Hauth].
Qed.

(** The SOAP login takes the session id of the response as the access
    token.  Let the response have status 200 and let its first
    [sessionId] element hold the text [session], not empty; then the
    login succeeds with a bearer token whose access token is [session]
    as it stands in the response, and which the authenticator keeps. *)
Theorem authenticateSOAP_session (issued now : Time) (a : Password.Authenticator)
    (serve : HTTPRequest -> RoundTrip) (script : Script)
    (before session rest : string) :
  (forall url, newRequest "POST" url = None) ->
  (forall req, serve req
               = Reply {| Status := 200; RetryAfterHeader := "";
                          RespBody := before +:+ ("<" +:+ "sessionId" +:+ ">")
                                      +:+ session
                                      +:+ ("</" +:+ "sessionId" +:+ ">")
                                      +:+ rest |}) ->
  Index (before +:+ "<" +:+ "sessionId" +:+ ">") ("<" +:+ "sessionId" +:+ ">")
  = Some (String.length before) ->
  Index (session +:+ "</" +:+ "sessionId" +:+ ">") ("</" +:+ "sessionId" +:+ ">")
  = Some (String.length session) ->
  session <> "" ->
  exists tok : Token,
    Password.authenticateSOAP newRequest issued now a (serve :: script)
    = Some (Ok tok, Password.setToken a tok, script) /\
    AccessToken tok = session /\
    TokenType tok = "Bearer" /\
    IssuedAt tok = issued /\
    ExpiresAt tok = now + 2 * Hour.
Proof.
  intros Hnew Hserve Hstart Hend Hsession.
  unfold Password.authenticateSOAP. rewrite Hnew, Hserve.
  cbn [Status RespBody Z.eqb Pos.eqb negb].
  rewrite (extractXMLValue_first before "sessionId" session rest Hstart Hend).
  replace (String.eqb session "") with false
    by (symmetry; apply String.eqb_neq; exact Hsession).
  eexists. split; [reflexivity |]. cbn. auto.
Qed.

End PasswordFlow.

Section StaticToken.
Import GoTime Types Http AuthStrategies.

(** A token handed to [NewTokenAuthenticator] is taken as valid for
    exactly two hours from the moment the authenticator is built, with
    no margin, whenever the token was issued. *)
Theorem Static_token_valid_two_hours (now at' : Time)
    (accessToken instanceURL : string) :
  Static.IsTokenValid at' (Static.New now accessToken instanceURL) = true
  <-> at' <= now + 2 * Hour.
Proof.
  unfold Static.IsTokenValid, Static.New, IsExpired, IsZero, Since.
  cbn [Static.token ExpiresAt IssuedAt Z.eqb].
  rewrite Sub_exceeds by (vm_compute; split; [discriminate | reflexivity]).
  rewrite negb_true_iff, Z.gtb_ltb, Z.ltb_ge. lia.
Qed.

Context `{JSON}.


End StaticToken.

Section Setup.
Import GoTime Types Http AuthStrategies SalesforceSetup.

Lemma Validate_setupAuthenticator (now : Time) (cfg : Config) :
  Validate cfg = None -> exists auth, setupAuthenticator now cfg = Ok auth.
Proof.
  unfold Validate, setupAuthenticator. intros Hvalid.
  destruct (nonEmpty (RefreshToken cfg)); [eauto |].
  destruct (nonEmpty (Username cfg) && nonEmpty (Password cfg)); [eauto |].
  destruct (nonEmpty (InstanceURL cfg)); [eauto |].
  cbn in Hvalid. discriminate.
Qed.

(** [NewClient] fails only on a configuration that [Validate] rejects:
    for a configuration that passes, [setupAuthenticator] finds an
    authenticator, so that its own error is never returned. *)
Theorem NewClient_fails_only_on_invalid_configuration (now : Time)
    (opts : list Option) (err : error) :
  NewClient now opts = Err err ->
  exists inner : error,
    Validate (fold_left (fun c opt => opt c) opts DefaultConfig) = Some inner /\
    err = ErrWrap "invalid configuration" inner.
Proof.
  unfold NewClient. intros Hnew.
  destruct (Validate (fold_left (fun c opt => opt c) opts DefaultConfig))
    as [inner |] eqn:Hvalid.
  - inversion Hnew; subst. eauto.
  - destruct (Validate_setupAuthenticator now _ Hvalid) as [auth Hauth].
    rewrite Hauth in Hnew. discriminate.
Qed.

(** A client built by [NewClient] always retries: a [MaxRetries] of zero
    or less does not turn retries off, it leaves the HTTP client with
    its own three retries and waits of one to thirty seconds. *)
Theorem NewClient_retries (now : Time) (opts : list Option)
    (c : SalesforceClient) :
  NewClient now opts = Ok c ->
  0 < maxRetries (httpClient c) /\
  hasTokenProvider (httpClient c) = true /\
  (MaxRetries (config c) <= 0 ->
   maxRetries (httpClient c) = 3 /\
   retryWaitMin (httpClient c) = 1 * Second /\
   retryWaitMax (httpClient c) = 30 * Second).
Proof.
  unfold NewClient. intros Hnew.
  destruct (Validate _); [discriminate |].
  destruct (setupAuthenticator now _) as [auth | e]; [| discriminate].
  inversion Hnew; subst; clear Hnew. cbn [httpClient config].
  destruct (Z.gtb_spec (MaxRetries (fold_left (fun c opt => opt c) opts
                                      DefaultConfig)) 0) as [Hpos | Hle];
    cbn [maxRetries hasTokenProvider retryWaitMin retryWaitMax].
  - split; [lia |]. split; [reflexivity |]. lia.
  - split; [lia |]. split; [reflexivity |]. auto.
Qed.

Context `{Decoders}.
Variable newRequest : NewRequest.

(** A client configured with an instance URL and neither a refresh token
    nor a user name with a password gets a static authenticator whose
    access token is empty.  [Connect] then succeeds without sending
    anything, and leaves the HTTP client with the instance URL as its
    base address and with an empty access token. *)
Theorem Connect_instance_url_only (issued now now' : Time) (opts : list Option)
    (c : SalesforceClient) (script : Script) :
  NewClient now opts = Ok c ->
  RefreshToken (config c) = "" ->
  Username (config c) = "" \/ Password (config c) = "" ->
  exists c' : SalesforceClient,
    Connect newRequest issued now' c script = Some (None, c', script) /\
    credentials (httpClient c') (shared c') = (InstanceURL (config c), "") /\
    InstanceURL (config c) <> "" /\
    authenticator c' = authenticator c.
Proof.
  unfold NewClient. intros Hnew Hrefresh Hpassword.
  destruct (Validate _) eqn:Hvalid; [discriminate |].
  destruct (setupAuthenticator now _) as [auth | e] eqn:Hsetup; [| discriminate].
  inversion Hnew; subst; clear Hnew. cbn [config] in *.
  remember (fold_left (fun c opt => opt c) opts DefaultConfig) as cfg.
  unfold setupAuthenticator in Hsetup. unfold nonEmpty in Hsetup.
  rewrite Hrefresh in Hsetup. cbn [String.eqb negb] in Hsetup.
  assert (Hnopass : negb (String.eqb (Username cfg) "")
                    && negb (String.eqb (Password cfg) "") = false).
  { destruct Hpassword as [-> | ->]; [reflexivity |].
    apply andb_false_iff. right. reflexivity. }
  rewrite Hnopass in Hsetup.
  destruct (String.eqb_spec (InstanceURL cfg) "") as [Hempty | Hurl];
    cbn [negb] in Hsetup; [discriminate |].
  inversion Hsetup; subst auth; clear Hsetup.
  unfold Connect, Authenticate. cbn [authenticator shared].
  unfold Static.Authenticate, Static.New. cbn [Static.token].
  cbn [Salesforce.Connect].
  eexists. split; [reflexivity |].
  cbn [httpClient shared authenticator].
  split; [| split; [exact Hurl | reflexivity]].
  unfold credentials, GetToken.
  destruct (MaxRetries cfg >? 0); cbn [hasTokenProvider token Types.InstanceURL
                                       Types.AccessToken];
    (replace (String.eqb (InstanceURL cfg) "") with false
      by (symmetry; apply String.eqb_neq; exact Hurl)); reflexivity.
Qed.

(** On a client with a static authenticator, [SetAccessToken] sets the
    token for good: a [Connect] after it sends nothing and leaves the
    client, token and base address included, as [SetAccessToken] left
    it. *)
Theorem SetAccessToken_then_Connect (issued now now' : Time)
    (accessToken instanceURL : string) (c : SalesforceClient)
    (a : Static.Authenticator) (script : Script) :
  authenticator c = UseStatic a ->
  Connect newRequest issued now'
    (SetAccessToken now accessToken instanceURL c) script
  = Some (None, SetAccessToken now accessToken instanceURL c, script).
Proof.
  intros Hauth. unfold Connect, SetAccessToken, Authenticate.
  cbn [authenticator shared config httpClient]. rewrite Hauth.
  unfold Static.Authenticate, Static.SetToken, Salesforce.SetAccessToken.
  cbn [Static.token token Salesforce.Connect Types.InstanceURL Types.AccessToken
       refreshCalls samples clock log].
  reflexivity.
Qed.

End Setup.

Section StrategyExamples.
Import GoTime Types Http AuthText AuthStrategies SalesforceSetup Examples
       MoreExamples.
#[local] Existing Instance exampleDecoders.
#[local] Existing Instance exampleJSON.


Lemma OAuthRefresh_Refresh_failure_keeps_state_witness :
  refresher = refresher /\
  ([] = [reply 400 "" invalidGrantBody] \/
   [] = tail [reply 400 "" invalidGrantBody]).
Proof.
  apply (OAuthRefresh_Refresh_failure_keeps_state newRequestOk t0 t0 refresher
           refresher [reply 400 "" invalidGrantBody] []
           (ErrAuth {| ErrorType := "invalid_grant";
                       Description := "expired access/refresh token";
                       AuthStatusCode := 400 |})).
  vm_compute. reflexivity.
Defined.

Lemma Password_Authenticate_error_is_SOAP_error_witness :
  exists (oauthErr : error) (script1 : Script),
    Password.authenticateOAuth newRequestOk t0 t0 loginUser
      [reply 400 "" invalidGrantBody; reply 500 "" loginFaultBody]
    = Some (Err oauthErr, loginUser, script1) /\
    Password.authenticateSOAP newRequestOk t0 t0 loginUser script1
    = Some (Err (ErrOther ("SOAP login failed with status 500: "
                           +:+ loginFaultBody)),
            loginUser, []).
Proof.
  apply (Password_Authenticate_error_is_SOAP_error newRequestOk t0 t0 loginUser
           loginUser [reply 400 "" invalidGrantBody; reply 500 "" loginFaultBody]
           []).
  vm_compute. reflexivity.
Defined.

Lemma authenticateSOAP_session_witness :
  exists tok : Token,
    Password.authenticateSOAP newRequestOk t0 t0 loginUser
      [reply 200 "" loginBody]
    = Some (Ok tok, Password.setToken loginUser tok, []) /\
    AccessToken tok = "00Dxx!AQ4&amp;x" /\
    TokenType tok = "Bearer" /\
    IssuedAt tok = t0 /\
    ExpiresAt tok = t0 + 2 * Hour.
Proof.
  apply (authenticateSOAP_session newRequestOk t0 t0 loginUser
           (reply 200 "" loginBody) []
           "<loginResponse><result><serverUrl>https://na1.example.com/services/Soap/u/59.0</serverUrl>"
           "00Dxx!AQ4&amp;x" "</result></loginResponse>").
  - reflexivity.
  - reflexivity.
  - vm_compute. reflexivity.
  - vm_compute. reflexivity.
  - discriminate.
Defined.


Lemma NewClient_fails_only_on_invalid_configuration_witness :
  exists inner : error,
    Validate (fold_left (fun c opt => opt c)
                [WithRetry 5 (1 * Second) (10 * Second)] DefaultConfig)
    = Some inner /\
    ErrWrap "invalid configuration"
      (ErrOther "at least one authentication method must be configured")
    = ErrWrap "invalid configuration" inner.
Proof.
  apply (NewClient_fails_only_on_invalid_configuration t0
           [WithRetry 5 (1 * Second) (10 * Second)]).
  vm_compute. reflexivity.
Defined.

Lemma NewClient_retries_witness :
  0 < maxRetries (httpClient instanceClient) /\
  hasTokenProvider (httpClient instanceClient) = true /\
  (MaxRetries (config instanceClient) <= 0 ->
   maxRetries (httpClient instanceClient) = 3 /\
   retryWaitMin (httpClient instanceClient) = 1 * Second /\
   retryWaitMax (httpClient instanceClient) = 30 * Second).
Proof.
  apply (NewClient_retries t0 instanceOnly instanceClient).
  vm_compute. reflexivity.
Defined.

Lemma Connect_instance_url_only_witness :
  exists c' : SalesforceClient,
    Connect newRequestOk t0 (t0 + 1 * Second) instanceClient
      [reply 200 "" grantBody]
    = Some (None, c', [reply 200 "" grantBody]) /\
    credentials (httpClient c') (shared c')
    = (InstanceURL (config instanceClient), "") /\
    InstanceURL (config instanceClient) <> "" /\
    authenticator c' = authenticator instanceClient.
Proof.
  apply (Connect_instance_url_only newRequestOk t0 t0 (t0 + 1 * Second)
           instanceOnly instanceClient [reply 200 "" grantBody]).
  - vm_compute. reflexivity.
  - reflexivity.
  - left. reflexivity.
Defined.

Lemma SetAccessToken_then_Connect_witness :
  Connect newRequestOk t0 (t0 + 2 * Second)
    (SetAccessToken (t0 + 1 * Second) "00Dxx!AQ4" "https://na1.example.com"
       instanceClient)
    [reply 200 "" grantBody]
  = Some (None,
          SetAccessToken (t0 + 1 * Second) "00Dxx!AQ4" "https://na1.example.com"
            instanceClient,
          [reply 200 "" grantBody]).
Proof.
  apply (SetAccessToken_then_Connect newRequestOk t0 (t0 + 1 * Second)
           (t0 + 2 * Second) "00Dxx!AQ4" "https://na1.example.com"
           instanceClient (Static.New t0 "" "https://na1.example.com")
           [reply 200 "" grantBody]).
  reflexivity.
Defined.

End StrategyExamples.

(** ** The columns of the result records *)

Section ResultColumns.
Import Types Csv CsvText Bulk BulkText.
Context {C : Type} `{HTTPClient C}.




End ResultColumns.

Section ResultColumnsExample.
Import Types Csv CsvText Bulk BulkText Examples.
#[local] Existing Instance fakeClient.


End ResultColumnsExample.
